(** * Job lifecycle of the financial document analyzer

    A shallow embedding of [db.py], [worker.py], [main.py] and the text
    extraction routine of [tools.py], followed by the properties of the job
    lifecycle: what a submission stores, what the worker writes back, what
    the status endpoint reports.

    Conventions of the embedding:
    - Python [str] values are Rocq strings read as sequences of code points
      below 256;
    - a Python call that may raise is a computation returning an [outcome];
      the exceptions of [outcome] are the instances of Python's [Exception],
      the class every handler of the sources names in [except Exception],
      and the store is taken to answer; the module [Detailed] embeds the
      handlers once more without these two conventions and records every
      table a commit produces;
    - the SQLite table, the RQ queue, the wall clock and the number of
      analysis runs started so far form the [World] threaded through every
      handler. *)

From Stdlib Require Import ZArith Ascii String List.
From stdpp Require Import base decidable option list gmap strings pretty relations.

Local Open Scope Z_scope.
Local Open Scope string_scope.

(** ** Exceptions and outcomes *)

Inductive exn : Type :=
| Exception (text : string)
| HTTPException (status_code : Z) (detail : string).

Inductive outcome (A : Type) : Type :=
| Returned (a : A)
| Raised (e : exn).
Arguments Returned {A} a.
Arguments Raised {A} e.

#[global] Instance exn_eq_dec : EqDecision exn.
Proof. solve_decision. Defined.

(** ** db.py: the [analysis] table *)

Module db.

(** One row of [class Analysis(Base)]. [result] is the only nullable
    column set by the code; timestamps are instants of the wall clock. *)
Record Analysis : Type := mkAnalysis {
  id : string;
  query : string;
  file_path : string;
  result : option string;
  status : string;
  created_at : Z;
  updated_at : Z
}.

Definition set_result (v : option string) (r : Analysis) : Analysis :=
  mkAnalysis (id r) (query r) (file_path r) v (status r)
             (created_at r) (updated_at r).

Definition set_status (v : string) (r : Analysis) : Analysis :=
  mkAnalysis (id r) (query r) (file_path r) (result r) v
             (created_at r) (updated_at r).

Definition set_updated_at (t : Z) (r : Analysis) : Analysis :=
  mkAnalysis (id r) (query r) (file_path r) (result r) (status r)
             (created_at r) t.

#[global] Instance Analysis_eq_dec : EqDecision Analysis.
Proof. solve_decision. Defined.

End db.

(** ** The world the handlers run in *)

(** [orm_object] is the object the open SQLAlchemy session holds, as the
    pair of the row it was loaded with and its attributes now; it is [None]
    when [session.get] found no row and after [session.close()]. *)
Record World : Type := mkWorld {
  analysis_table : gmap string db.Analysis;       (* sqlite:///analysis.db *)
  rq_jobs : list (string * string * string);       (* Queue('financial')    *)
  crew_calls : nat;                                (* analysis runs started *)
  utcnow : Z;                                      (* datetime.utcnow()     *)
  orm_object : option (db.Analysis * db.Analysis)
}.

Definition with_table (t : gmap string db.Analysis) (w : World) : World :=
  mkWorld t (rq_jobs w) (crew_calls w) (utcnow w) (orm_object w).

Definition with_rq_jobs (q : list (string * string * string)) (w : World) : World :=
  mkWorld (analysis_table w) q (crew_calls w) (utcnow w) (orm_object w).

Definition with_crew_calls (n : nat) (w : World) : World :=
  mkWorld (analysis_table w) (rq_jobs w) n (utcnow w) (orm_object w).

Definition with_utcnow (t : Z) (w : World) : World :=
  mkWorld (analysis_table w) (rq_jobs w) (crew_calls w) t (orm_object w).

Definition with_orm_object (o : option (db.Analysis * db.Analysis)) (w : World) : World :=
  mkWorld (analysis_table w) (rq_jobs w) (crew_calls w) (utcnow w) o.

(** ** A state and exception monad for handler bodies *)

Definition M (A : Type) : Type := World → outcome A * World.

Definition ret {A} (a : A) : M A := λ w, (Returned a, w).

Definition raise {A} (e : exn) : M A := λ w, (Raised e, w).

Definition bind {A B} (m : M A) (k : A → M B) : M B :=
  λ w, match m w with
       | (Returned a, w') => k a w'
       | (Raised e, w') => (Raised e, w')
       end.

(** [try: m except Exception as e: h e] *)
Definition try_except {A} (m : M A) (h : exn → M A) : M A :=
  λ w, match m w with
       | (Returned a, w') => (Returned a, w')
       | (Raised e, w') => h e w'
       end.

(** [try: m finally: f]; an exception of [f] replaces the outcome of [m]. *)
Definition try_finally {A} (m : M A) (f : M unit) : M A :=
  λ w, match m w with
       | (r, w') =>
           match f w' with
           | (Returned _, w'') => (r, w'')
           | (Raised e, w'') => (Raised e, w'')
           end
       end.

Definition lift {A} (o : outcome A) : M A := λ w, (o, w).

#[global] Instance M_ret : MRet M := @ret.
#[global] Instance M_bind : MBind M := λ A B k m, bind m k.

(** ** Python string helpers used by the sources *)

(** [str.isspace] on code points below 256. *)
Definition isspace (c : ascii) : bool :=
  let n := nat_of_ascii c in
  ((9 <=? n) && (n <=? 13) || (28 <=? n) && (n <=? 32)
   || (n =? 133) || (n =? 160))%nat.

Fixpoint lstrip (s : string) : string :=
  match s with
  | EmptyString => EmptyString
  | String c s' => if isspace c then lstrip s' else s
  end.

Fixpoint rstrip (s : string) : string :=
  match s with
  | EmptyString => EmptyString
  | String c s' =>
      match rstrip s' with
      | EmptyString => if isspace c then EmptyString else String c EmptyString
      | t => String c t
      end
  end.

(** [s.strip()] *)
Definition strip (s : string) : string := rstrip (lstrip s).

(** [sep.join(parts)] *)
Fixpoint join (sep : string) (parts : list string) : string :=
  match parts with
  | [] => ""
  | [p] => p
  | p :: ps => p +:+ sep +:+ join sep ps
  end.

(** Line boundaries of [str.splitlines] below 256: \n \v \f \r \x1c \x1d
    \x1e \x85. *)
Definition is_linebreak (c : ascii) : bool :=
  let n := nat_of_ascii c in
  ((10 <=? n) && (n <=? 13) || (28 <=? n) && (n <=? 30) || (n =? 133))%nat.

(** [acc] is the line being read, in reverse. *)
Fixpoint splitlines_from (acc : string) (s : string) : list string :=
  match s with
  | EmptyString =>
      match acc with
      | EmptyString => []
      | _ => [String.rev acc]
      end
  | String c s' =>
      if is_linebreak c then
        match s' with
        | String c' s'' =>
            if ((nat_of_ascii c =? 13) && (nat_of_ascii c' =? 10))%nat
            then String.rev acc :: splitlines_from EmptyString s''
            else String.rev acc :: splitlines_from EmptyString s'
        | EmptyString => [String.rev acc]
        end
      else splitlines_from (String c acc) s'
  end.

(** [s.splitlines()] *)
Definition splitlines (s : string) : list string := splitlines_from EmptyString s.

(** ** The deployment: what the process finds at import time *)

(** What the client and its surroundings contribute to one [POST /analyze]:
    the upload and the form field, whether saving the upload under [data/]
    raised, the two UUIDs drawn (the file name and the primary key), and
    whether [queue.enqueue] raised. *)
Record Submission : Type := mkSubmission {
  filename : string;
  form_query : string;
  save_upload : outcome unit;
  uuid_file : string;
  uuid_job : string;
  rq_enqueue : outcome unit
}.

(** The dictionary [POST /analyze] returns; the key [result] is absent from
    the queued reply. *)
Record Response : Type := mkResponse {
  resp_status : string;
  resp_job_id : string;
  resp_query : string;
  resp_file_processed : string;
  resp_result : option string
}.

(** The dictionary [GET /status/{job_id}] returns. *)
Record StatusReply : Type := mkStatusReply {
  reply_job_id : string;
  reply_status : string;
  reply_result : option string
}.

(** What the process finds around it: the crew, the queue library and the
    installed Starlette.
    - [run_crew] is [run_crew(query, file_path)] followed by [str(result)];
      the crew is an external collaborator, so its outcome is a field; the
      first argument is the number of runs started before this one, which
      lets two runs on the same arguments differ;
    - [REDIS_AVAILABLE] is decided once by the import of [redis] and [rq];
    - [str_HTTPException] is [str(e)] for a Starlette [HTTPException], which
      depends on the installed version. *)
Class Deployment : Type := mkDeployment {
  run_crew : nat → string → string → outcome string;
  REDIS_AVAILABLE : bool;
  str_HTTPException : Z → string → string
}.

Section Analyzer.

Context `{Deployment}.

(** [str(e)] *)
Definition str (e : exn) : string :=
  match e with
  | Exception text => text
  | HTTPException status_code detail => str_HTTPException status_code detail
  end.

(** *** The SQLAlchemy session *)

(** [session.get(Analysis, job_id)]: the row as loaded, or [None]; the
    object stays attached to the session through [orm_object]. *)
Definition session_get (job_id : string) : M (option db.Analysis) :=
  λ w, match analysis_table w !! job_id with
       | Some row => (Returned (Some row), with_orm_object (Some (row, row)) w)
       | None => (Returned None, with_orm_object None w)
       end.

(** The first line of what the driver reports when the primary key is
    taken; the statement and parameter lines SQLAlchemy appends are left
    out. *)
Definition unique_violation : exn :=
  Exception "(sqlite3.IntegrityError) UNIQUE constraint failed: analysis.id".

(** [job = Analysis(query=..., file_path=..., status=...); session.add(job);
    session.commit(); session.refresh(job)]: [id] is the column default
    [str(uuid.uuid4())], given here as [new_id]; [result] is left NULL;
    both timestamps default to [utcnow]. Returns [job.id]. *)
Definition session_add (new_id query file_path status : string) : M string :=
  λ w, match analysis_table w !! new_id with
       | Some _ => (Raised unique_violation, w)
       | None =>
           let job := db.mkAnalysis new_id query file_path None status
                                    (utcnow w) (utcnow w) in
           (Returned (db.id job),
            with_orm_object (Some (job, job))
              (with_table (<[new_id := job]> (analysis_table w)) w))
       end.

Definition attribute_error (name : string) : exn :=
  Exception ("'NoneType' object has no attribute '" +:+ name +:+ "'").

(** [record.result = v] *)
Definition setattr_result (v : string) : M unit :=
  λ w, match orm_object w with
       | Some (loaded, record) =>
           (Returned (), with_orm_object (Some (loaded, db.set_result (Some v) record)) w)
       | None => (Raised (attribute_error "result"), w)
       end.

(** [record.status = v] *)
Definition setattr_status (v : string) : M unit :=
  λ w, match orm_object w with
       | Some (loaded, record) =>
           (Returned (), with_orm_object (Some (loaded, db.set_status v record)) w)
       | None => (Raised (attribute_error "status"), w)
       end.

(** [session.commit()]: an UPDATE is emitted only when an attribute of the
    held object differs from its loaded value, and it is the UPDATE that
    fires [onupdate=utcnow] on [updated_at]. *)
Definition session_commit : M unit :=
  λ w, match orm_object w with
       | Some (loaded, record) =>
           if decide (record = loaded) then (Returned (), w)
           else
             let row := db.set_updated_at (utcnow w) record in
             (Returned (),
              with_orm_object (Some (row, row))
                (with_table (<[db.id row := row]> (analysis_table w)) w))
       | None => (Returned (), w)
       end.

(** [session.close()] *)
Definition session_close : M unit :=
  λ w, (Returned (), with_orm_object None w).

(** *** main.py: [run_crew] as called by both execution paths *)

Definition call_run_crew (query file_path : string) : M string :=
  λ w, (run_crew (crew_calls w) query file_path,
        with_crew_calls (S (crew_calls w)) w).

(** *** worker.py *)

Definition process_job (job_id query file_path : string) : M unit :=
  record ← session_get job_id;
  match record with
  | None =>
      session_close;;
      mret ()
  | Some _ =>
      try_finally
        (try_except
           (result ← call_run_crew query file_path;
            setattr_result result;;
            setattr_status "completed")
           (λ e,
            setattr_result ("error: " +:+ str e);;
            setattr_status "failed"))
        (session_commit;;
         session_close)
  end.

(** *** main.py: the endpoints *)

(** [GET /status/{job_id}] *)
Definition job_status (job_id : string) : M StatusReply :=
  record ← session_get job_id;
  session_close;;
  match record with
  | None => raise (HTTPException 404 "Job not found")
  | Some record =>
      mret (mkStatusReply (db.id record) (db.status record) (db.result record))
  end.

Definition default_query : string :=
  "Analyze this financial document for investment insights".

(** [queue.enqueue(process_job, job_id, query, file_path)] *)
Definition queue_enqueue (reply : outcome unit)
    (job : string * string * string) : M unit :=
  λ w, match reply with
       | Returned _ => (Returned (), with_rq_jobs (rq_jobs w ++ [job]) w)
       | Raised e => (Raised e, w)
       end.

(** [POST /analyze] *)
Definition analyze_financial_document (s : Submission) : M Response :=
  let file_id := uuid_file s in
  let file_path := "data/financial_document_" +:+ file_id +:+ ".pdf" in
  try_except
    (lift (save_upload s);;
     let query :=
       if decide (form_query s = "") then default_query else form_query s in
     job_id ← session_add (uuid_job s) (strip query) file_path "pending";
     session_close;;
     if REDIS_AVAILABLE then
       queue_enqueue (rq_enqueue s) (job_id, strip query, file_path);;
       mret (mkResponse "queued" job_id query (filename s) None)
     else
       try_except
         (result ← call_run_crew (strip query) file_path;
          session_get job_id;;
          setattr_result result;;
          setattr_status "completed";;
          session_commit;;
          session_close;;
          mret (mkResponse "completed" job_id query (filename s) (Some result)))
         (λ e,
          session_get job_id;;
          setattr_result ("error: " +:+ str e);;
          setattr_status "failed";;
          session_commit;;
          session_close;;
          raise (HTTPException 500 ("Error processing document: " +:+ str e))))
    (λ e,
     raise (HTTPException 500 ("Error queuing financial document: " +:+ str e))).

(** *** The RQ worker: [rq worker financial] *)

(** Pop the oldest queued call, if any. *)
Definition dequeue : M (option (string * string * string)) :=
  λ w, match rq_jobs w with
       | [] => (Returned None, w)
       | job :: rest => (Returned (Some job), with_rq_jobs rest w)
       end.

(** The loop of the worker over at most [n] queued calls; an exception
    leaving [process_job] would end it. *)
Fixpoint worker_loop (n : nat) : M unit :=
  match n with
  | O => mret ()
  | S n' =>
      job ← dequeue;
      match job with
      | None => mret ()
      | Some (job_id, query, file_path) =>
          process_job job_id query file_path;;
          worker_loop n'
      end
  end.

End Analyzer.

(** ** tools.py: the text extraction routine *)

(** What the file system holds under a path: nothing, something that cannot
    be opened for reading (no permission, a directory), or a file. *)
Inductive file_state : Type :=
| Missing
| Unreadable
| Readable (data : list Byte.byte).

#[global] Instance outcome_ret : MRet outcome := @Returned.
#[global] Instance outcome_bind : MBind outcome :=
  λ A B k o, match o with
             | Returned a => k a
             | Raised e => Raised e
             end.

Section Tools.

Variable fs : string → file_state.

(** [PdfReader is not None]: whether [PyPDF2] could be imported. *)
Variable PdfReader_available : bool.

(** PyPDF2 on the bytes of a file: it raises, or gives the pages, each
    with what its [extract_text()] does (raise, [None], or a text). *)
Variable pdf_pages : list Byte.byte → outcome (list (outcome (option string))).

(** [data.decode('utf-8', errors='ignore')] *)
Variable decode_utf8_ignore : list Byte.byte → outcome string.

(** [os.path.exists(path)] *)
Definition os_path_exists (path : string) : bool :=
  match fs path with
  | Missing => false
  | _ => true
  end.

(** [open(path, 'rb').read()] *)
Definition open_read (path : string) : outcome (list Byte.byte) :=
  match fs path with
  | Missing =>
      Raised (Exception ("[Errno 2] No such file or directory: '" +:+ path +:+ "'"))
  | Unreadable =>
      Raised (Exception ("[Errno 13] Permission denied: '" +:+ path +:+ "'"))
  | Readable data => Returned data
  end.

(** [PdfReader(path).pages] *)
Definition PdfReader (path : string) : outcome (list (outcome (option string))) :=
  data ← open_read path;
  pdf_pages data.

Definition newline : string := String "010" EmptyString.

(** ['\n'.join([line.strip() for line in text.splitlines() if line.strip()])] *)
Definition normalize_whitespace (text : string) : string :=
  join newline
    (map strip (filter (λ line, strip line ≠ "") (splitlines text))).

(** The body of [for page in reader.pages], appending to [full_report]. *)
Fixpoint read_pages (pages : list (outcome (option string)))
    (full_report : list string) : outcome (list string) :=
  match pages with
  | [] => Returned full_report
  | page :: rest =>
      extracted ← page;
      let text := match extracted with
                  | Some t => t
                  | None => ""
                  end in
      read_pages rest (full_report ++ [normalize_whitespace text])
  end.

(** The [try] block guarded by [if PdfReader is not None]. *)
Definition read_pdf (path : string) : outcome string :=
  pages ← PdfReader path;
  full_report ← read_pages pages [];
  mret (join (newline +:+ newline) full_report).

(** The fallback of [read_data_tool]: the bytes decoded as text. *)
Definition read_as_text (path : string) : outcome string :=
  match open_read path with
  | Returned data =>
      match decode_utf8_ignore data with
      | Returned text => Returned text
      | Raised _ => Returned ""
      end
  | Raised _ => Returned ""
  end.

(** [FinancialDocumentTool.read_data_tool(path)], awaited. *)
Definition read_data_tool (path : string) : outcome string :=
  if negb (os_path_exists path) then Returned ""
  else
    let parsed :=
      if PdfReader_available then
        match read_pdf path with
        | Returned report => Some report
        | Raised _ => None
        end
      else None in
    match parsed with
    | Some report => Returned report
    | None => read_as_text path
    end.

End Tools.

(** ** tools.py: the placeholder analysis tools *)

(** [acc] is the word being read, in reverse. *)
Fixpoint split_from (acc : string) (s : string) : list string :=
  match s with
  | EmptyString =>
      match acc with
      | EmptyString => []
      | _ => [String.rev acc]
      end
  | String c s' =>
      if isspace c then
        match acc with
        | EmptyString => split_from EmptyString s'
        | _ => String.rev acc :: split_from EmptyString s'
        end
      else split_from (String c acc) s'
  end.

(** [s.split()]: the maximal runs of characters that are not whitespace. *)
Definition split (s : string) : list string := split_from EmptyString s.

(** [InvestmentTool.analyze_investment_tool(financial_document_data)],
    awaited. *)
Definition analyze_investment_tool (financial_document_data : string) : string :=
  if decide (financial_document_data = "") then
    "No document content available for investment analysis."
  else
    let words := split financial_document_data in
    let num_words := length words in
    let num_chars := String.length financial_document_data in
    "Document size: " +:+ pretty num_words +:+ " words, " +:+ pretty num_chars
    +:+ " characters. Detailed analysis not implemented.".

(** [RiskTool.create_risk_assessment_tool(financial_document_data)],
    awaited. *)
Definition create_risk_assessment_tool (financial_document_data : string) : string :=
  if decide (financial_document_data = "") then
    "No document content available for risk assessment."
  else
    "Basic risk check complete. Detailed risk models are not implemented in this debug build.".

(** ** The lifecycle as a transition system *)

Section Lifecycle.

Context `{Deployment}.

(** Nothing stored, nothing queued, no session open. *)
Definition initial (w : World) : Prop :=
  analysis_table w = ∅ ∧ rq_jobs w = [] ∧ orm_object w = None.

(** One atomic event of the deployment: a submission is handled, a status
    is polled, the worker runs queued calls, a queued call is delivered
    (again) with whatever arguments the broker holds, or time passes. *)
Inductive step : World → World → Prop :=
| step_submit (s : Submission) (w : World) :
    step w (analyze_financial_document s w).2
| step_poll (job_id : string) (w : World) :
    step w (job_status job_id w).2
| step_worker (n : nat) (w : World) :
    step w (worker_loop n w).2
| step_deliver (job_id query file_path : string) (w : World) :
    step w (process_job job_id query file_path w).2
| step_clock (t : Z) (w : World) :
    (utcnow w ≤ t)%Z → step w (with_utcnow t w).

Definition reachable (w : World) : Prop :=
  ∃ w0, initial w0 ∧ rtc step w0 w.

Definition terminal (status : string) : Prop :=
  status = "completed" ∨ status = "failed".

Definition waiting (status : string) : Prop :=
  status = "pending" ∨ status = "queued".

(** The shape of a stored row: keyed by its [id], and [result] is NULL
    exactly while the job waits. *)
Definition row_ok (job_id : string) (row : db.Analysis) : Prop :=
  db.id row = job_id ∧
  ((db.status row = "pending" ∧ db.result row = None)
   ∨ (db.status row = "completed" ∧ ∃ text, db.result row = Some text)
   ∨ (db.status row = "failed" ∧ ∃ text, db.result row = Some ("error: " +:+ text))).

Definition table_ok (w : World) : Prop :=
  ∀ job_id row, analysis_table w !! job_id = Some row → row_ok job_id row.

(** How a stored row may differ after some events: the submitted columns
    are kept, and either nothing was written or the row is terminal and
    carries a result. *)
Definition evolved (row row' : db.Analysis) : Prop :=
  db.id row' = db.id row ∧ db.query row' = db.query row
  ∧ db.file_path row' = db.file_path row
  ∧ db.created_at row' = db.created_at row
  ∧ (row' = row ∨ (terminal (db.status row') ∧ is_Some (db.result row'))).

Definition table_evolves (w w' : World) : Prop :=
  ∀ job_id row, analysis_table w !! job_id = Some row →
    ∃ row', analysis_table w' !! job_id = Some row' ∧ evolved row row'.

End Lifecycle.

(** ** Vocabulary of the statements *)

Section Vocabulary.

Context `{Deployment}.

(** The query a submission is recorded and answered with: the form field,
    or the default when the field is empty. *)
Definition submitted_query (s : Submission) : string :=
  if decide (form_query s = "") then default_query else form_query s.

(** Where the upload of a submission is saved. *)
Definition saved_path (s : Submission) : string :=
  "data/financial_document_" +:+ uuid_file s +:+ ".pdf".

(** The row a submission inserts. *)
Definition pending_row (s : Submission) (w : World) : db.Analysis :=
  db.mkAnalysis (uuid_job s) (strip (submitted_query s)) (saved_path s)
                None "pending" (utcnow w) (utcnow w).

(** The attributes an analysis run leaves on the object of a loaded row. *)
Definition written_back (run : outcome string) (row : db.Analysis) : db.Analysis :=
  match run with
  | Returned text => db.set_status "completed" (db.set_result (Some text) row)
  | Raised e => db.set_status "failed" (db.set_result (Some ("error: " +:+ str e)) row)
  end.

(** The table after [session.commit()] of an object loaded as [loaded] and
    now reading [record]. *)
Definition flushed (loaded record : db.Analysis) (w : World) : gmap string db.Analysis :=
  if decide (record = loaded) then analysis_table w
  else <[db.id record := db.set_updated_at (utcnow w) record]> (analysis_table w).

(** The row a delivery leaves in place of [row]: [row] itself when the run
    wrote the values it already had, else the new values stamped [now]. *)
Definition rewritten (run : outcome string) (now : Z) (row : db.Analysis) : db.Analysis :=
  if decide (written_back run row = row) then row
  else db.set_updated_at now (written_back run row).

(** Rows are stored under their own [id]. *)
Definition keyed (w : World) : Prop :=
  ∀ job_id row, analysis_table w !! job_id = Some row → db.id row = job_id.

End Vocabulary.

(** Every character of [s] is whitespace. *)
Fixpoint blank (s : string) : bool :=
  match s with
  | EmptyString => true
  | String c s' => isspace c && blank s'
  end.

(** No character of [s] is a line boundary. *)
Fixpoint one_line (s : string) : bool :=
  match s with
  | EmptyString => true
  | String c s' => negb (is_linebreak c) && one_line s'
  end.

(** The first character of [s], if any, is not whitespace. *)
Definition starts_tight (s : string) : bool :=
  match s with
  | EmptyString => true
  | String c _ => negb (isspace c)
  end.

(** The last character of [s], if any, is not whitespace. *)
Fixpoint ends_tight (s : string) : bool :=
  match s with
  | EmptyString => true
  | String c EmptyString => negb (isspace c)
  | String _ s' => ends_tight s'
  end.

(** Timestamps of every stored row lie in order and not in the future. *)
Definition stamps_ok (w : World) : Prop :=
  ∀ job_id row, analysis_table w !! job_id = Some row →
    (db.created_at row ≤ db.updated_at row)%Z ∧ (db.updated_at row ≤ utcnow w)%Z.

(** Every queued call names a stored row and carries its query and path. *)
Definition queue_ok (w : World) : Prop :=
  ∀ job_id query file_path, (job_id, query, file_path) ∈ rq_jobs w →
    ∃ row, analysis_table w !! job_id = Some row
           ∧ db.query row = query ∧ db.file_path row = file_path.

(** [needle in hay] *)
Fixpoint contains (needle hay : string) : bool :=
  String.prefix needle hay
  || match hay with
     | EmptyString => false
     | String _ rest => contains needle rest
     end.

(** ** Concrete deployments and inputs *)

(** [str(e)] of an [HTTPException] in current Starlette:
    [f"{self.status_code}: {self.detail}"]. *)
Definition starlette_str (status_code : Z) (detail : string) : string :=
  pretty status_code +:+ ": " +:+ detail.

Definition no_anomalies : string := "3 pages, no anomalies".

Definition leaked_text : string :=
  "Traceback (most recent call last): openai.AuthenticationError: key sk-live-1234 rejected".

(** The queue library is installed and the crew succeeds. *)
Definition queued_deployment : Deployment :=
  mkDeployment (λ _ _ _, Returned no_anomalies) true starlette_str.

(** The queue library is installed; the first run of the crew succeeds and
    every later run raises. *)
Definition flaky_deployment : Deployment :=
  mkDeployment
    (λ n _ _, match n with
              | O => Returned no_anomalies
              | S _ => Raised (Exception "rate limit exceeded")
              end)
    true starlette_str.

(** No queue library; the crew succeeds. *)
Definition inline_deployment : Deployment :=
  mkDeployment (λ _ _ _, Returned no_anomalies) false starlette_str.

(** No queue library; the crew raises. *)
Definition failing_deployment : Deployment :=
  mkDeployment (λ _ _ _, Raised (Exception leaked_text)) false starlette_str.

(** The queue library is installed; the first run of the crew raises and
    every later run succeeds. *)
Definition recovering_deployment : Deployment :=
  mkDeployment
    (λ n _ _, match n with
              | O => Raised (Exception "rate limit exceeded")
              | S _ => Returned no_anomalies
              end)
    true starlette_str.

Definition fresh_world : World := mkWorld ∅ [] 0 0 None.

Definition doc1 : Submission :=
  mkSubmission "doc1.pdf" "summarize" (Returned ()) "f-1" "j-1" (Returned ()).

Definition doc2 : Submission :=
  mkSubmission "doc2.pdf" "" (Returned ()) "f-2" "j-2" (Returned ()).

(** A submission whose query is three spaces. *)
Definition doc_blank : Submission :=
  mkSubmission "doc3.pdf" "   " (Returned ()) "f-3" "j-3" (Returned ()).

(** [doc1] when the broker cannot be reached. *)
Definition doc1_unreachable : Submission :=
  mkSubmission "doc1.pdf" "summarize" (Returned ()) "f-1" "j-1"
    (Raised (Exception "Error 111 connecting to localhost:6379. Connection refused.")).

(** [doc1] was submitted to the flaky deployment at instant 0, the worker
    ran it, and the clock now reads 5. *)
Definition completed_world : World :=
  with_utcnow 5
    (@worker_loop flaky_deployment 1
       (@analyze_financial_document flaky_deployment doc1 fresh_world).2).2.

(** The row of [doc1] in [completed_world]. *)
Definition completed_row : db.Analysis :=
  db.mkAnalysis "j-1" "summarize" "data/financial_document_f-1.pdf"
                (Some no_anomalies) "completed" 0 0.

(** The broker delivers the call for [doc1] a second time. *)
Definition redelivered_world : World :=
  (@process_job flaky_deployment "j-1" "summarize"
     "data/financial_document_f-1.pdf" completed_world).2.

(** [doc1] then [doc2] were submitted to the recovering deployment and the
    worker has not run yet. *)
Definition two_queued_world : World :=
  (@analyze_financial_document recovering_deployment doc2
     (@analyze_financial_document recovering_deployment doc1 fresh_world).2).2.

(** A file system with one unreadable entry and one text file. *)
Definition sample_fs (path : string) : file_state :=
  if decide (path = "data/locked.pdf") then Unreadable
  else if decide (path = "data/notes.txt") then Readable [Byte.x68; Byte.x69]
  else Missing.

(** A PDF library that rejects every file. *)
Definition rejecting_pdf (data : list Byte.byte) : outcome (list (outcome (option string))) :=
  Raised (Exception "EOF marker not found").

(** A PDF library reading three pages without text, as from a scan. *)
Definition scanned_pdf (data : list Byte.byte) : outcome (list (outcome (option string))) :=
  Returned [Returned None; Returned (Some "  "); Returned None].

(** A PDF library whose second page cannot be read. *)
Definition damaged_pdf (data : list Byte.byte) : outcome (list (outcome (option string))) :=
  Returned [Returned (Some "Revenue 12"); Raised (Exception "broken page")].

(** A decoder for bytes below 128. *)
Definition ascii_decode (data : list Byte.byte) : outcome string :=
  Returned (string_of_list_byte data).

(** ** The handlers with every raise and every commit

    The embedding above takes the raises of the collaborators to be
    instances of [Exception] and the store to answer. The module below
    embeds the same handlers without these two conventions: a raise may lie
    outside [Exception], which no [except Exception] clause catches;
    [session.get] and [session.commit] may raise; and every table a commit
    produces is recorded. *)

Module Detailed.

(** What a Python call raises: an instance of [Exception], or an exception
    outside that class ([SystemExit], [KeyboardInterrupt],
    [asyncio.CancelledError], [GeneratorExit]), given by the name of its
    class and its text. *)
Inductive raised : Type :=
| Instance (e : exn)
| BaseOnly (class_name : string) (text : string).

Inductive result (A : Type) : Type :=
| Done (a : A)
| Threw (r : raised).
Arguments Done {A} a.
Arguments Threw {A} r.

(** An [outcome] of the embedding above, read here. *)
Definition of_outcome {A} (o : outcome A) : result A :=
  match o with
  | Returned a => Done a
  | Raised e => Threw (Instance e)
  end.

(** The world, and every table the store has held, the latest first: each
    commit that writes puts the table it produces in front. *)
Record State : Type := mkState {
  world : World;
  history : list (gmap string db.Analysis)
}.

Definition on_world (f : World → World) (st : State) : State :=
  mkState (f (world st)) (history st).

(** The table a commit leaves. *)
Definition committed (t : gmap string db.Analysis) (st : State) : State :=
  mkState (with_table t (world st)) (t :: history st).

(** What the process finds around it:
    - [base] is the deployment of the embedding above;
    - [run_exits] tells when a run of the crew ends by an exception outside
      [Exception], of this class and text, instead of as [run_crew] says;
    - [get_fault] and [commit_fault] tell at which instants [session.get]
      and [session.commit] raise, and what. *)
Class Environment : Type := mkEnvironment {
  base : Deployment;
  run_exits : nat → string → string → option (string * string);
  get_fault : Z → option raised;
  commit_fault : Z → option raised
}.

Definition M (A : Type) : Type := State → result A * State.

Definition ret {A} (a : A) : M A := λ st, (Done a, st).

Definition raise {A} (r : raised) : M A := λ st, (Threw r, st).

Definition bind {A B} (m : M A) (k : A → M B) : M B :=
  λ st, match m st with
        | (Done a, st') => k a st'
        | (Threw r, st') => (Threw r, st')
        end.

(** [try: m except Exception as e: h e]: only instances of [Exception] are
    handled. *)
Definition try_except {A} (m : M A) (h : exn → M A) : M A :=
  λ st, match m st with
        | (Threw (Instance e), st') => h e st'
        | (r, st') => (r, st')
        end.

(** [try: m finally: f]; an exception of [f] replaces the outcome of [m]. *)
Definition try_finally {A} (m : M A) (f : M unit) : M A :=
  λ st, match m st with
        | (r, st') =>
            match f st' with
            | (Done _, st'') => (r, st'')
            | (Threw r', st'') => (Threw r', st'')
            end
        end.

Definition lift {A} (o : outcome A) : M A := λ st, (of_outcome o, st).

#[global] Instance M_ret : MRet M := @ret.
#[global] Instance M_bind : MBind M := λ A B k m, bind m k.

Section Handlers.

Context `{Environment}.

#[local] Existing Instance base.

(** [session.get(Analysis, job_id)] *)
Definition session_get (job_id : string) : M (option db.Analysis) :=
  λ st, match get_fault (utcnow (world st)) with
        | Some r => (Threw r, st)
        | None =>
            match analysis_table (world st) !! job_id with
            | Some row =>
                (Done (Some row), on_world (with_orm_object (Some (row, row))) st)
            | None => (Done None, on_world (with_orm_object None) st)
            end
        end.

(** [job = Analysis(...); session.add(job); session.commit();
    session.refresh(job)], returning [job.id]. *)
Definition session_add (new_id query file_path status : string) : M string :=
  λ st, match commit_fault (utcnow (world st)) with
        | Some r => (Threw r, st)
        | None =>
            match analysis_table (world st) !! new_id with
            | Some _ => (Threw (Instance unique_violation), st)
            | None =>
                let now := utcnow (world st) in
                let job := db.mkAnalysis new_id query file_path None status now now in
                (Done (db.id job),
                 on_world (with_orm_object (Some (job, job)))
                   (committed (<[new_id := job]> (analysis_table (world st))) st))
            end
        end.

(** [record.result = v] *)
Definition setattr_result (v : string) : M unit :=
  λ st, match orm_object (world st) with
        | Some (loaded, record) =>
            (Done (),
             on_world (with_orm_object (Some (loaded, db.set_result (Some v) record))) st)
        | None => (Threw (Instance (attribute_error "result")), st)
        end.

(** [record.status = v] *)
Definition setattr_status (v : string) : M unit :=
  λ st, match orm_object (world st) with
        | Some (loaded, record) =>
            (Done (),
             on_world (with_orm_object (Some (loaded, db.set_status v record))) st)
        | None => (Threw (Instance (attribute_error "status")), st)
        end.

(** [session.commit()]: one UPDATE of the changed columns of the held
    object, or none when nothing differs from the loaded row. *)
Definition session_commit : M unit :=
  λ st, match commit_fault (utcnow (world st)) with
        | Some r => (Threw r, st)
        | None =>
            match orm_object (world st) with
            | Some (loaded, record) =>
                if decide (record = loaded) then (Done (), st)
                else
                  let row := db.set_updated_at (utcnow (world st)) record in
                  (Done (),
                   on_world (with_orm_object (Some (row, row)))
                     (committed (<[db.id row := row]> (analysis_table (world st))) st))
            | None => (Done (), st)
            end
        end.

(** [session.close()] *)
Definition session_close : M unit :=
  λ st, (Done (), on_world (with_orm_object None) st).

(** [run_crew(query, file_path)] followed by [str(result)] *)
Definition call_run_crew (query file_path : string) : M string :=
  λ st,
    let n := crew_calls (world st) in
    (match run_exits n query file_path with
     | Some (class_name, text) => Threw (BaseOnly class_name text)
     | None => of_outcome (run_crew n query file_path)
     end,
     on_world (with_crew_calls (S n)) st).

(** worker.py *)
Definition process_job (job_id query file_path : string) : M unit :=
  record ← session_get job_id;
  match record with
  | None =>
      session_close;;
      mret ()
  | Some _ =>
      try_finally
        (try_except
           (result ← call_run_crew query file_path;
            setattr_result result;;
            setattr_status "completed")
           (λ e,
            setattr_result ("error: " +:+ str e);;
            setattr_status "failed"))
        (session_commit;;
         session_close)
  end.

(** [GET /status/{job_id}] *)
Definition job_status (job_id : string) : M StatusReply :=
  record ← session_get job_id;
  session_close;;
  match record with
  | None => raise (Instance (HTTPException 404 "Job not found"))
  | Some record =>
      mret (mkStatusReply (db.id record) (db.status record) (db.result record))
  end.

(** [queue.enqueue(process_job, job_id, query, file_path)] *)
Definition queue_enqueue (reply : outcome unit)
    (job : string * string * string) : M unit :=
  λ st, match reply with
        | Returned _ => (Done (), on_world (with_rq_jobs (rq_jobs (world st) ++ [job])) st)
        | Raised e => (Threw (Instance e), st)
        end.

(** [POST /analyze] *)
Definition analyze_financial_document (s : Submission) : M Response :=
  let file_id := uuid_file s in
  let file_path := "data/financial_document_" +:+ file_id +:+ ".pdf" in
  try_except
    (lift (save_upload s);;
     let query :=
       if decide (form_query s = "") then default_query else form_query s in
     job_id ← session_add (uuid_job s) (strip query) file_path "pending";
     session_close;;
     if REDIS_AVAILABLE then
       queue_enqueue (rq_enqueue s) (job_id, strip query, file_path);;
       mret (mkResponse "queued" job_id query (filename s) None)
     else
       try_except
         (result ← call_run_crew (strip query) file_path;
          session_get job_id;;
          setattr_result result;;
          setattr_status "completed";;
          session_commit;;
          session_close;;
          mret (mkResponse "completed" job_id query (filename s) (Some result)))
         (λ e,
          session_get job_id;;
          setattr_result ("error: " +:+ str e);;
          setattr_status "failed";;
          session_commit;;
          session_close;;
          raise (Instance
                   (HTTPException 500 ("Error processing document: " +:+ str e)))))
    (λ e,
     raise (Instance
              (HTTPException 500 ("Error queuing financial document: " +:+ str e)))).

(** Pop the oldest queued call, if any. *)
Definition dequeue : M (option (string * string * string)) :=
  λ st, match rq_jobs (world st) with
        | [] => (Done None, st)
        | job :: rest => (Done (Some job), on_world (with_rq_jobs rest) st)
        end.

(** The loop of the worker over at most [n] queued calls; an exception
    leaving [process_job] ends it. *)
Fixpoint worker_loop (n : nat) : M unit :=
  match n with
  | O => mret ()
  | S n' =>
      job ← dequeue;
      match job with
      | None => mret ()
      | Some (job_id, query, file_path) =>
          process_job job_id query file_path;;
          worker_loop n'
      end
  end.

(** Nothing stored, nothing queued, no session open, and the history holds
    the empty table only. *)
Definition initial (st : State) : Prop :=
  analysis_table (world st) = ∅ ∧ rq_jobs (world st) = []
  ∧ orm_object (world st) = None ∧ history st = [∅].

(** One event of the deployment, as in [step] above. *)
Inductive step : State → State → Prop :=
| step_submit (s : Submission) (st : State) :
    step st (analyze_financial_document s st).2
| step_poll (job_id : string) (st : State) :
    step st (job_status job_id st).2
| step_worker (n : nat) (st : State) :
    step st (worker_loop n st).2
| step_deliver (job_id query file_path : string) (st : State) :
    step st (process_job job_id query file_path st).2
| step_clock (t : Z) (st : State) :
    (utcnow (world st) ≤ t)%Z → step st (on_world (with_utcnow t) st).

Definition reachable (st : State) : Prop :=
  ∃ st0, initial st0 ∧ rtc step st0 st.

End Handlers.

(** The result column of every row of [t] is set exactly when its status is
    terminal, and the status is one the code writes. *)
Definition rows_ok (t : gmap string db.Analysis) : Prop :=
  ∀ job_id row, t !! job_id = Some row →
    (waiting (db.status row) ∧ db.result row = None)
    ∨ (terminal (db.status row) ∧ is_Some (db.result row)).

(** From table [t] to table [t'] no row is lost, and each row either keeps
    both its status and its result or is terminal with a result. *)
Definition written_together (t t' : gmap string db.Analysis) : Prop :=
  ∀ job_id row, t !! job_id = Some row →
    ∃ row', t' !! job_id = Some row'
            ∧ ((db.status row' = db.status row ∧ db.result row' = db.result row)
               ∨ (terminal (db.status row') ∧ is_Some (db.result row'))).

(** Each table of a history, the latest first, follows the one before it. *)
Fixpoint chained (tables : list (gmap string db.Analysis)) : Prop :=
  match tables with
  | later :: (earlier :: _) as rest => written_together earlier later ∧ chained rest
  | _ => True
  end.

(** The object a session holds belongs to the table: it was loaded from the
    row stored under its id, and it either still reads as that row or is
    terminal with a result. *)
Definition object_ok (st : State) : Prop :=
  ∀ loaded record, orm_object (world st) = Some (loaded, record) →
    analysis_table (world st) !! db.id loaded = Some loaded
    ∧ db.id record = db.id loaded
    ∧ (record = loaded
       ∨ (terminal (db.status record) ∧ is_Some (db.result record))).

(** What holds of a state between any two operations of a handler, except
    between the two assignments to [result] and [status]. *)
Definition consistent (st : State) : Prop :=
  head (history st) = Some (analysis_table (world st))
  ∧ Forall rows_ok (history st)
  ∧ chained (history st)
  ∧ keyed (world st)
  ∧ object_ok st.

(** A computation keeps [P], however it ends. *)
Definition keeps {A} (P : State → Prop) (m : M A) : Prop :=
  ∀ st, P st → P (m st).2.

(** The environment in which the conventions of the embedding above hold:
    no run ends outside [Exception] and the store always answers. *)
Definition benign `{Environment} : Prop :=
  (∀ n query file_path, run_exits n query file_path = None)
  ∧ (∀ t, get_fault t = None)
  ∧ (∀ t, commit_fault t = None).

End Detailed.

(** ** Concrete environments and states of the detailed embedding *)

(** The flaky deployment, with no run ending outside [Exception] and a store
    that always answers. *)
Definition calm_environment : Detailed.Environment :=
  Detailed.mkEnvironment flaky_deployment (λ _ _ _, None) (λ _, None) (λ _, None).

(** The recovering deployment under the same conditions. *)
Definition calm_recovering : Detailed.Environment :=
  Detailed.mkEnvironment recovering_deployment (λ _ _ _, None) (λ _, None) (λ _, None).

(** The failing deployment, without queue library, under the same
    conditions. *)
Definition calm_failing : Detailed.Environment :=
  Detailed.mkEnvironment failing_deployment (λ _ _ _, None) (λ _, None) (λ _, None).

(** Every run of the crew ends by [SystemExit(1)], as after [sys.exit(1)]
    inside a tool. *)
Definition exiting_environment : Detailed.Environment :=
  Detailed.mkEnvironment queued_deployment (λ _ _ _, Some ("SystemExit", "1"))
    (λ _, None) (λ _, None).

(** The crew raises an ordinary exception on every run after the first, and
    at instant 7 the database file is locked, so that a commit raises. *)
Definition locked_environment : Detailed.Environment :=
  Detailed.mkEnvironment recovering_deployment (λ _ _ _, None) (λ _, None)
    (λ t, if decide (t = 7)
          then Some (Detailed.Instance
                       (Exception "(sqlite3.OperationalError) database is locked"))
          else None).

Definition fresh_state : Detailed.State := Detailed.mkState fresh_world [∅].

(** [doc1] was submitted with the queue library at instant 0; the row and
    the queued call do not depend on the crew. *)
Definition queued_state : Detailed.State :=
  (@Detailed.analyze_financial_document exiting_environment doc1 fresh_state).2.

(** The same, seven instants later. *)
Definition queued_state_at_7 : Detailed.State :=
  Detailed.on_world (with_utcnow 7) queued_state.

(** [doc1] and [doc2] were submitted to the recovering deployment and the
    worker has not run yet. *)
Definition two_queued_state : Detailed.State :=
  (@Detailed.analyze_financial_document calm_recovering doc2
     (@Detailed.analyze_financial_document calm_recovering doc1 fresh_state).2).2.

(** [doc1] was submitted without queue library to the failing deployment. *)
Definition inline_failed_state : Detailed.State :=
  (@Detailed.analyze_financial_document calm_failing doc1 fresh_state).2.

(** ** What each handler computes *)

Ltac run_py :=
  cbv [mbind M_bind bind mret M_ret ret raise lift try_except try_finally
       session_get session_add session_commit session_close
       setattr_result setattr_status call_run_crew queue_enqueue dequeue];
  cbn [analysis_table rq_jobs crew_calls utcnow orm_object
       with_table with_rq_jobs with_crew_calls with_utcnow with_orm_object
       fst snd].

Section Handlers.

Context `{Deployment}.

Lemma process_job_absent (w : World) (job_id query file_path : string) :
  analysis_table w !! job_id = None →
  process_job job_id query file_path w = (Returned (), with_orm_object None w).
Proof.
  intros Hnone. unfold process_job. run_py. rewrite Hnone. reflexivity.
Qed.

Lemma process_job_present (w : World) (job_id query file_path : string)
    (row : db.Analysis) :
  analysis_table w !! job_id = Some row →
  process_job job_id query file_path w
  = (Returned (),
     mkWorld (flushed row (written_back (run_crew (crew_calls w) query file_path) row) w)
             (rq_jobs w) (S (crew_calls w)) (utcnow w) None).
Proof.
  intros Hrow. unfold process_job. run_py. rewrite Hrow. run_py.
  unfold flushed, written_back.
  destruct (run_crew (crew_calls w) query file_path) as [text|e]; run_py;
    case_decide; reflexivity.
Qed.

Lemma analyze_save_raised (s : Submission) (w : World) (e : exn) :
  save_upload s = Raised e →
  analyze_financial_document s w
  = (Raised (HTTPException 500 ("Error queuing financial document: " +:+ str e)), w).
Proof.
  intros Hsave. unfold analyze_financial_document. run_py. rewrite Hsave.
  reflexivity.
Qed.

Lemma analyze_id_taken (s : Submission) (w : World) (row : db.Analysis) :
  save_upload s = Returned () →
  analysis_table w !! uuid_job s = Some row →
  analyze_financial_document s w
  = (Raised (HTTPException 500
               ("Error queuing financial document: " +:+ str unique_violation)), w).
Proof.
  intros Hsave Hrow. unfold analyze_financial_document. run_py.
  rewrite Hsave, Hrow. reflexivity.
Qed.

Lemma analyze_enqueued (s : Submission) (w : World) :
  REDIS_AVAILABLE = true →
  save_upload s = Returned () →
  analysis_table w !! uuid_job s = None →
  rq_enqueue s = Returned () →
  analyze_financial_document s w
  = (Returned (mkResponse "queued" (uuid_job s) (submitted_query s) (filename s) None),
     mkWorld (<[uuid_job s := pending_row s w]> (analysis_table w))
             (rq_jobs w ++ [(uuid_job s, strip (submitted_query s), saved_path s)])
             (crew_calls w) (utcnow w) None).
Proof.
  intros Hredis Hsave Hfresh Henq. unfold analyze_financial_document. run_py.
  rewrite Hsave, Hfresh, Hredis. run_py. rewrite Henq. reflexivity.
Qed.

Lemma analyze_enqueue_raised (s : Submission) (w : World) (e : exn) :
  REDIS_AVAILABLE = true →
  save_upload s = Returned () →
  analysis_table w !! uuid_job s = None →
  rq_enqueue s = Raised e →
  analyze_financial_document s w
  = (Raised (HTTPException 500 ("Error queuing financial document: " +:+ str e)),
     mkWorld (<[uuid_job s := pending_row s w]> (analysis_table w))
             (rq_jobs w) (crew_calls w) (utcnow w) None).
Proof.
  intros Hredis Hsave Hfresh Henq. unfold analyze_financial_document. run_py.
  rewrite Hsave, Hfresh, Hredis. run_py. rewrite Henq. reflexivity.
Qed.

Lemma analyze_inline (s : Submission) (w : World) :
  REDIS_AVAILABLE = false →
  save_upload s = Returned () →
  analysis_table w !! uuid_job s = None →
  analyze_financial_document s w
  = (match run_crew (crew_calls w) (strip (submitted_query s)) (saved_path s) with
     | Returned text =>
         Returned (mkResponse "completed" (uuid_job s) (submitted_query s)
                              (filename s) (Some text))
     | Raised e =>
         Raised (HTTPException 500
                   ("Error queuing financial document: "
                    +:+ str (HTTPException 500
                               ("Error processing document: " +:+ str e))))
     end,
     mkWorld (<[uuid_job s :=
                  db.set_updated_at (utcnow w)
                    (written_back
                       (run_crew (crew_calls w) (strip (submitted_query s)) (saved_path s))
                       (pending_row s w))]>
                (<[uuid_job s := pending_row s w]> (analysis_table w)))
             (rq_jobs w) (S (crew_calls w)) (utcnow w) None).
Proof.
  intros Hredis Hsave Hfresh. unfold analyze_financial_document. run_py.
  rewrite Hsave, Hfresh, Hredis. run_py.
  fold (submitted_query s) (saved_path s) (pending_row s w).
  destruct (run_crew (crew_calls w) (strip (submitted_query s)) (saved_path s))
    as [text|e]; run_py; rewrite lookup_insert_eq; run_py;
    (case_decide as Hsame; [discriminate Hsame | reflexivity]).
Qed.

Lemma job_status_present (w : World) (job_id : string) (row : db.Analysis) :
  analysis_table w !! job_id = Some row →
  job_status job_id w
  = (Returned (mkStatusReply (db.id row) (db.status row) (db.result row)),
     with_orm_object None w).
Proof.
  intros Hrow. unfold job_status. run_py. rewrite Hrow. reflexivity.
Qed.

Lemma job_status_absent (w : World) (job_id : string) :
  analysis_table w !! job_id = None →
  job_status job_id w
  = (Raised (HTTPException 404 "Job not found"), with_orm_object None w).
Proof.
  intros Hnone. unfold job_status. run_py. rewrite Hnone. reflexivity.
Qed.

Lemma process_job_returns (w : World) (job_id query file_path : string) :
  process_job job_id query file_path w
  = (Returned (), (process_job job_id query file_path w).2).
Proof.
  destruct (analysis_table w !! job_id) as [row|] eqn:Hrow.
  - rewrite (process_job_present _ _ _ _ _ Hrow). reflexivity.
  - rewrite (process_job_absent _ _ _ _ Hrow). reflexivity.
Qed.

Lemma worker_loop_empty (n : nat) (w : World) :
  rq_jobs w = [] → worker_loop n w = (Returned (), w).
Proof.
  intros Hq. destruct n; [reflexivity|]. cbn [worker_loop]. run_py.
  rewrite Hq. reflexivity.
Qed.

Lemma worker_loop_cons (n : nat) (w : World) (job_id query file_path : string)
    (rest : list (string * string * string)) :
  rq_jobs w = (job_id, query, file_path) :: rest →
  worker_loop (S n) w
  = worker_loop n (process_job job_id query file_path (with_rq_jobs rest w)).2.
Proof.
  intros Hq. cbn [worker_loop]. run_py. rewrite Hq.
  rewrite process_job_returns. reflexivity.
Qed.

End Handlers.

(** ** Rows under deliveries *)

Section Rows.

Context `{Deployment}.

Lemma written_back_id (run : outcome string) (row : db.Analysis) :
  db.id (written_back run row) = db.id row.
Proof. destruct run; reflexivity. Qed.

Lemma written_back_terminal (run : outcome string) (row : db.Analysis) :
  terminal (db.status (written_back run row))
  ∧ is_Some (db.result (written_back run row)).
Proof.
  destruct run; cbn; split; eauto; unfold terminal; auto.
Qed.

Lemma rewritten_columns (run : outcome string) (now : Z) (row : db.Analysis) :
  db.id (rewritten run now row) = db.id row
  ∧ db.query (rewritten run now row) = db.query row
  ∧ db.file_path (rewritten run now row) = db.file_path row
  ∧ db.created_at (rewritten run now row) = db.created_at row
  ∧ db.status (rewritten run now row) = db.status (written_back run row)
  ∧ db.result (rewritten run now row) = db.result (written_back run row).
Proof.
  unfold rewritten. case_decide as Hsame.
  - rewrite Hsame. repeat split; reflexivity.
  - destruct run; repeat split; reflexivity.
Qed.

Lemma rewritten_evolved (run : outcome string) (now : Z) (row : db.Analysis) :
  evolved row (rewritten run now row).
Proof.
  destruct (rewritten_columns run now row) as (Hid & Hq & Hf & Hc & Hs & Hr).
  unfold evolved. repeat (split; [assumption|]).
  right. rewrite Hs, Hr. apply written_back_terminal.
Qed.

Lemma rewritten_row_ok (run : outcome string) (now : Z) (job_id : string)
    (row : db.Analysis) :
  db.id row = job_id → row_ok job_id (rewritten run now row).
Proof.
  intros Hid.
  destruct (rewritten_columns run now row) as (Hid' & _ & _ & _ & Hs & Hr).
  split; [congruence|]. rewrite Hs, Hr. right.
  destruct run as [text|e]; cbn; [left | right]; eauto.
Qed.

Lemma flushed_rewritten (w : World) (run : outcome string) (row : db.Analysis) :
  analysis_table w !! db.id row = Some row →
  flushed row (written_back run row) w
  = <[db.id row := rewritten run (utcnow w) row]> (analysis_table w).
Proof.
  intros Hrow. unfold flushed, rewritten. case_decide.
  - symmetry. apply insert_id. assumption.
  - rewrite written_back_id. reflexivity.
Qed.

Lemma process_job_lookup_eq (w : World) (job_id query file_path : string) :
  keyed w →
  analysis_table (process_job job_id query file_path w).2 !! job_id
  = rewritten (run_crew (crew_calls w) query file_path) (utcnow w)
      <$> analysis_table w !! job_id.
Proof.
  intros Hkey. destruct (analysis_table w !! job_id) as [row|] eqn:Hrow.
  - rewrite (process_job_present _ _ _ _ _ Hrow). cbn [snd analysis_table].
    pose proof (Hkey _ _ Hrow) as Hid. subst job_id.
    rewrite flushed_rewritten by assumption.
    rewrite lookup_insert_eq. reflexivity.
  - rewrite (process_job_absent _ _ _ _ Hrow). cbn. assumption.
Qed.

Lemma process_job_lookup_ne (w : World) (job_id query file_path other : string) :
  keyed w → other ≠ job_id →
  analysis_table (process_job job_id query file_path w).2 !! other
  = analysis_table w !! other.
Proof.
  intros Hkey Hne. destruct (analysis_table w !! job_id) as [row|] eqn:Hrow.
  - rewrite (process_job_present _ _ _ _ _ Hrow). cbn [snd analysis_table].
    pose proof (Hkey _ _ Hrow) as Hid. subst job_id.
    rewrite flushed_rewritten by assumption.
    rewrite lookup_insert_ne by congruence. reflexivity.
  - rewrite (process_job_absent _ _ _ _ Hrow). reflexivity.
Qed.

Lemma process_job_counters (w : World) (job_id query file_path : string) :
  rq_jobs (process_job job_id query file_path w).2 = rq_jobs w
  ∧ utcnow (process_job job_id query file_path w).2 = utcnow w
  ∧ crew_calls (process_job job_id query file_path w).2
    = match analysis_table w !! job_id with
      | Some _ => S (crew_calls w)
      | None => crew_calls w
      end.
Proof.
  destruct (analysis_table w !! job_id) as [row|] eqn:Hrow.
  - rewrite (process_job_present _ _ _ _ _ Hrow). auto.
  - rewrite (process_job_absent _ _ _ _ Hrow). auto.
Qed.

Lemma table_ok_keyed (w : World) : table_ok w → keyed w.
Proof. intros Hok job_id row Hrow. apply (Hok _ _ Hrow). Qed.

Lemma process_job_keyed (w : World) (job_id query file_path : string) :
  keyed w → keyed (process_job job_id query file_path w).2.
Proof.
  intros Hkey other row'. destruct (decide (other = job_id)) as [->|Hne].
  - rewrite process_job_lookup_eq by assumption.
    destruct (analysis_table w !! job_id) as [row|] eqn:Hrow; [|discriminate].
    cbn. intros [= <-].
    destruct (rewritten_columns (run_crew (crew_calls w) query file_path)
                (utcnow w) row) as (-> & _). eauto.
  - rewrite process_job_lookup_ne by assumption. apply Hkey.
Qed.

Lemma process_job_table_ok (w : World) (job_id query file_path : string) :
  table_ok w → table_ok (process_job job_id query file_path w).2.
Proof.
  intros Hok other row'. pose proof (table_ok_keyed _ Hok) as Hkey.
  destruct (decide (other = job_id)) as [->|Hne].
  - rewrite process_job_lookup_eq by assumption.
    destruct (analysis_table w !! job_id) as [row|] eqn:Hrow; [|discriminate].
    cbn. intros [= <-]. apply rewritten_row_ok. eauto.
  - rewrite process_job_lookup_ne by assumption. apply Hok.
Qed.

Lemma process_job_evolves (w : World) (job_id query file_path : string) :
  keyed w → table_evolves w (process_job job_id query file_path w).2.
Proof.
  intros Hkey other row Hrow. destruct (decide (other = job_id)) as [->|Hne].
  - rewrite process_job_lookup_eq, Hrow by assumption. cbn.
    eexists; split; [reflexivity|]. apply rewritten_evolved.
  - rewrite process_job_lookup_ne by assumption.
    exists row. split; [assumption|]. unfold evolved. auto 10.
Qed.

Lemma evolved_refl (row : db.Analysis) : evolved row row.
Proof. unfold evolved. auto 10. Qed.

Lemma evolved_trans (a b c : db.Analysis) :
  evolved a b → evolved b c → evolved a c.
Proof.
  intros (Hi & Hq & Hf & Hc & Hab) (Hi' & Hq' & Hf' & Hc' & Hbc).
  unfold evolved. repeat (split; [congruence|]).
  destruct Hbc as [->|Hterm]; auto.
Qed.

Lemma table_evolves_refl (w : World) : table_evolves w w.
Proof. intros job_id row Hrow. exists row. split; [assumption | apply evolved_refl]. Qed.

Lemma table_evolves_trans (a b c : World) :
  table_evolves a b → table_evolves b c → table_evolves a c.
Proof.
  intros Hab Hbc job_id row Hrow.
  destruct (Hab _ _ Hrow) as (row' & Hrow' & Hev).
  destruct (Hbc _ _ Hrow') as (row'' & Hrow'' & Hev').
  exists row''. split; [assumption | eapply evolved_trans; eassumption].
Qed.

Lemma worker_loop_returns (n : nat) (w : World) :
  worker_loop n w = (Returned (), (worker_loop n w).2)
  ∧ rq_jobs (worker_loop n w).2 = drop n (rq_jobs w)
  ∧ utcnow (worker_loop n w).2 = utcnow w.
Proof.
  revert w. induction n as [|n IH]; intros w.
  - cbn. rewrite drop_0. auto.
  - destruct (rq_jobs w) as [|[[job_id query] file_path] rest] eqn:Hq.
    + rewrite (worker_loop_empty _ _ Hq). cbn. rewrite Hq. auto.
    + rewrite (worker_loop_cons _ _ _ _ _ _ Hq).
      destruct (IH (process_job job_id query file_path (with_rq_jobs rest w)).2)
        as (Hret & Hrest & Hnow).
      destruct (process_job_counters (with_rq_jobs rest w) job_id query file_path)
        as (Hq' & Hnow' & _).
      rewrite Hq' in Hrest. rewrite Hnow' in Hnow. cbn in Hrest, Hnow.
      split; [rewrite Hret at 1; reflexivity|]. split; assumption.
Qed.

Lemma worker_loop_keeps (n : nat) (w : World) :
  keyed w →
  keyed (worker_loop n w).2
  ∧ table_evolves w (worker_loop n w).2
  ∧ (table_ok w → table_ok (worker_loop n w).2).
Proof.
  revert w. induction n as [|n IH]; intros w Hkey.
  - cbn. split; [assumption|]. split; [apply table_evolves_refl | auto].
  - destruct (rq_jobs w) as [|[[job_id query] file_path] rest] eqn:Hq.
    + rewrite (worker_loop_empty _ _ Hq). cbn.
      split; [assumption|]. split; [apply table_evolves_refl | auto].
    + rewrite (worker_loop_cons _ _ _ _ _ _ Hq).
      assert (keyed (with_rq_jobs rest w)) as Hkey' by exact Hkey.
      pose proof (process_job_keyed _ job_id query file_path Hkey') as Hkey''.
      destruct (IH _ Hkey'') as (Hk & Hev & Hok).
      split; [assumption|]. split.
      * eapply table_evolves_trans; [|exact Hev].
        apply (process_job_evolves (with_rq_jobs rest w)). assumption.
      * intros Hw. apply Hok.
        apply (process_job_table_ok (with_rq_jobs rest w)). exact Hw.
Qed.

End Rows.

(** ** Invariants of the transition system *)

Section Invariants.

Context `{Deployment}.

Lemma analyze_table (s : Submission) (w : World) :
  analysis_table (analyze_financial_document s w).2 = analysis_table w
  ∨ (analysis_table w !! uuid_job s = None
     ∧ ∃ row, row_ok (uuid_job s) row
         ∧ analysis_table (analyze_financial_document s w).2
           = <[uuid_job s := row]> (analysis_table w)).
Proof.
  destruct (save_upload s) as [[]|e] eqn:Hsave;
    [|rewrite (analyze_save_raised _ _ _ Hsave); auto].
  destruct (analysis_table w !! uuid_job s) as [old|] eqn:Hfresh;
    [rewrite (analyze_id_taken _ _ _ Hsave Hfresh); auto|].
  right. split; [reflexivity|].
  assert (row_ok (uuid_job s) (pending_row s w)) as Hpending
    by (split; [reflexivity | left; split; reflexivity]).
  destruct REDIS_AVAILABLE eqn:Hredis.
  - exists (pending_row s w). split; [assumption|].
    destruct (rq_enqueue s) as [[]|e] eqn:Henq.
    + rewrite (analyze_enqueued _ _ Hredis Hsave Hfresh Henq). reflexivity.
    + rewrite (analyze_enqueue_raised _ _ _ Hredis Hsave Hfresh Henq). reflexivity.
  - rewrite (analyze_inline _ _ Hredis Hsave Hfresh). cbn [snd analysis_table].
    rewrite insert_insert_eq. eexists. split; [|reflexivity].
    split; [apply written_back_id|]. right.
    destruct (run_crew _ _ _) as [text|e]; cbn; [left | right]; eauto.
Qed.

Lemma analyze_table_ok (s : Submission) (w : World) :
  table_ok w → table_ok (analyze_financial_document s w).2.
Proof.
  intros Hok. destruct (analyze_table s w) as [Hsame|(Hfresh & row & Hrow & Hnew)];
    unfold table_ok; [rewrite Hsame; exact Hok|].
  rewrite Hnew. intros job_id row'. rewrite lookup_insert.
  case_decide as Hid; [intros [= <-]; subst; assumption | apply Hok].
Qed.

Lemma analyze_evolves (s : Submission) (w : World) :
  table_evolves w (analyze_financial_document s w).2.
Proof.
  intros job_id row Hrow. exists row. split; [|apply evolved_refl].
  destruct (analyze_table s w) as [Hsame|(Hfresh & row' & _ & Hnew)].
  - rewrite Hsame. assumption.
  - rewrite Hnew, lookup_insert_ne; [assumption | congruence].
Qed.

Lemma job_status_table (job_id : string) (w : World) :
  analysis_table (job_status job_id w).2 = analysis_table w.
Proof.
  destruct (analysis_table w !! job_id) as [row|] eqn:Hrow.
  - rewrite (job_status_present _ _ _ Hrow). reflexivity.
  - rewrite (job_status_absent _ _ Hrow). reflexivity.
Qed.

Lemma step_table_ok (w w' : World) : table_ok w → step w w' → table_ok w'.
Proof.
  intros Hok Hstep. destruct Hstep.
  - apply analyze_table_ok. assumption.
  - unfold table_ok. rewrite job_status_table. exact Hok.
  - apply worker_loop_keeps; [apply table_ok_keyed|]; assumption.
  - apply process_job_table_ok. assumption.
  - exact Hok.
Qed.

Lemma step_evolves (w w' : World) : keyed w → step w w' → table_evolves w w'.
Proof.
  intros Hkey Hstep. destruct Hstep.
  - apply analyze_evolves.
  - unfold table_evolves. rewrite job_status_table. apply table_evolves_refl.
  - apply worker_loop_keeps. assumption.
  - apply process_job_evolves. assumption.
  - exact (table_evolves_refl w).
Qed.

Lemma reachable_table_ok (w : World) : reachable w → table_ok w.
Proof.
  intros (w0 & (Hempty & _) & Hsteps).
  assert (table_ok w0) as Hok0.
  { intros job_id row. rewrite Hempty, lookup_empty. discriminate. }
  clear Hempty. induction Hsteps as [|a b c Hstep _ IH]; [assumption|].
  apply IH. eapply step_table_ok; eassumption.
Qed.

End Invariants.

(** ** The worker and redelivery *)

Section Worker.

Context `{Deployment}.

Lemma written_back_same (run : outcome string) (row : db.Analysis) :
  written_back run row = row
  ↔ db.status (written_back run row) = db.status row
    ∧ db.result (written_back run row) = db.result row.
Proof.
  split; [intros ->; auto|].
  destruct run, row; cbn; intros [-> ->]; reflexivity.
Qed.

Lemma rewritten_updated_at (run : outcome string) (now : Z) (row : db.Analysis) :
  db.updated_at (rewritten run now row)
  = if decide (db.status (rewritten run now row) = db.status row
               ∧ db.result (rewritten run now row) = db.result row)
    then db.updated_at row else now.
Proof.
  destruct (rewritten_columns run now row) as (_ & _ & _ & _ & -> & ->).
  unfold rewritten. case_decide as Hsame.
  - rewrite decide_True; [reflexivity | apply written_back_same; assumption].
  - rewrite decide_False; [destruct run; reflexivity|].
    rewrite <- written_back_same. assumption.
Qed.

Lemma evolved_terminal (row row' : db.Analysis) :
  evolved row row' → terminal (db.status row) → terminal (db.status row').
Proof. intros (_ & _ & _ & _ & [->|[Hterm _]]); auto. Qed.

Lemma worker_loop_all_terminal (jobs : list (string * string * string)) :
  ∀ w, keyed w → rq_jobs w = jobs →
    ∀ job_id query file_path,
      (job_id, query, file_path) ∈ jobs →
      is_Some (analysis_table w !! job_id) →
      ∃ row', analysis_table (worker_loop (length jobs) w).2 !! job_id = Some row'
              ∧ terminal (db.status row').
Proof.
  induction jobs as [|[[j0 q0] f0] rest IH]; intros w Hkey Hq job_id query file_path Hin Hsome.
  - inversion Hin.
  - cbn [length]. rewrite (worker_loop_cons _ _ _ _ _ _ Hq).
    set (w0 := with_rq_jobs rest w).
    set (w1 := (process_job j0 q0 f0 w0).2).
    assert (keyed w0) as Hkey0 by exact Hkey.
    pose proof (process_job_keyed _ j0 q0 f0 Hkey0) as Hkey1. fold w1 in Hkey1.
    assert (rq_jobs w1 = rest) as Hq1
      by (unfold w1; rewrite (proj1 (process_job_counters w0 j0 q0 f0)); reflexivity).
    destruct Hsome as [row Hrow].
    destruct (process_job_evolves w0 j0 q0 f0 Hkey0 _ _ Hrow) as (row1 & Hrow1 & Hev1).
    fold w1 in Hrow1.
    apply elem_of_cons in Hin as [Hhead|Hrest].
    + injection Hhead as -> -> ->.
      assert (terminal (db.status row1)) as Hterm1.
      { pose proof (process_job_lookup_eq w0 j0 q0 f0 Hkey0) as Heq. fold w1 in Heq.
        change (analysis_table w0) with (analysis_table w) in Heq.
        rewrite Hrow1, Hrow in Heq.
        change (Some row1
                = Some (rewritten (run_crew (crew_calls w0) q0 f0) (utcnow w0) row)) in Heq.
        injection Heq as ->.
        rewrite (proj1 (proj2 (proj2 (proj2 (proj2 (rewritten_columns _ _ _)))))).
        apply written_back_terminal. }
      destruct (worker_loop_keeps (length rest) w1 Hkey1) as (_ & Hev & _).
      destruct (Hev _ _ Hrow1) as (row' & Hrow' & Hev').
      exists row'. split; [assumption|]. eapply evolved_terminal; eassumption.
    + eapply IH; eauto.
Qed.

(** C1 (amended). Delivering a job id again whose stored row is already
    'completed' or 'failed' is not a no-op: [process_job] starts one more
    analysis run and stores that run's outcome as the row's status and
    result; [updated_at] is set to the current instant exactly when the
    stored status or result changes, and keeps its value otherwise. *)
Theorem C1_redelivery_runs_again (w : World) (job_id query file_path : string)
    (row : db.Analysis) :
  analysis_table w !! job_id = Some row →
  db.id row = job_id →
  terminal (db.status row) →
  ∃ w' row',
    process_job job_id query file_path w = (Returned (), w')
    ∧ crew_calls w' = S (crew_calls w)
    ∧ analysis_table w' !! job_id = Some row'
    ∧ match run_crew (crew_calls w) query file_path with
      | Returned text =>
          db.status row' = "completed" ∧ db.result row' = Some text
      | Raised e =>
          db.status row' = "failed" ∧ db.result row' = Some ("error: " +:+ str e)
      end
    ∧ db.updated_at row'
      = if decide (db.status row' = db.status row ∧ db.result row' = db.result row)
        then db.updated_at row else utcnow w.
Proof.
  intros Hrow Hid _. subst job_id.
  exists (process_job (db.id row) query file_path w).2,
         (rewritten (run_crew (crew_calls w) query file_path) (utcnow w) row).
  split; [apply process_job_returns|].
  split; [rewrite (proj2 (proj2 (process_job_counters _ _ _ _))), Hrow; reflexivity|].
  rewrite (process_job_present _ _ _ _ _ Hrow). cbn [snd analysis_table].
  rewrite flushed_rewritten by assumption.
  split; [apply lookup_insert_eq|].
  split; [|apply rewritten_updated_at].
  destruct (rewritten_columns (run_crew (crew_calls w) query file_path) (utcnow w) row)
    as (_ & _ & _ & _ & -> & ->).
  destruct (run_crew (crew_calls w) query file_path); cbn; auto.
Qed.

(** C3 (amended). The update made by [process_job] neither signals nor
    rejects: for a job id with no stored row it returns normally, creating
    no row; for a row whose status is already 'completed' or 'failed' it is
    accepted, and the row is replaced by one with the same submitted columns
    and the status and result of the new run, every other row being kept. *)
Theorem C3_update_is_silent_and_unconditional (w : World)
    (job_id query file_path : string) :
  (analysis_table w !! job_id = None →
   ∃ w', process_job job_id query file_path w = (Returned (), w')
         ∧ analysis_table w' = analysis_table w
         ∧ crew_calls w' = crew_calls w)
  ∧ (∀ row, analysis_table w !! job_id = Some row →
       db.id row = job_id →
       terminal (db.status row) →
       ∃ w' row',
         process_job job_id query file_path w = (Returned (), w')
         ∧ analysis_table w' = <[job_id := row']> (analysis_table w)
         ∧ db.id row' = job_id
         ∧ db.query row' = db.query row
         ∧ db.file_path row' = db.file_path row
         ∧ db.created_at row' = db.created_at row
         ∧ db.status row'
           = db.status (written_back (run_crew (crew_calls w) query file_path) row)
         ∧ db.result row'
           = db.result (written_back (run_crew (crew_calls w) query file_path) row)).
Proof.
  split.
  - intros Hnone. eexists. rewrite (process_job_absent _ _ _ _ Hnone).
    split; [reflexivity|]. split; reflexivity.
  - intros row Hrow Hid _. subst job_id.
    exists (process_job (db.id row) query file_path w).2,
           (rewritten (run_crew (crew_calls w) query file_path) (utcnow w) row).
    split; [apply process_job_returns|].
    rewrite (process_job_present _ _ _ _ _ Hrow). cbn [snd analysis_table].
    split; [apply flushed_rewritten; assumption|].
    apply rewritten_columns.
Qed.

End Worker.

(** ** Submission, polling and the lifecycle invariant *)

Section Endpoints.

Context `{Deployment}.

(** C2 (amended). When the queue library is available, the submission
    handler enqueues the job and answers at once with status 'queued', but
    it does not touch the stored row again: the row keeps status 'pending'
    and no result, and that is what a status query then reports; no
    analysis run is started by the handler. *)
Theorem C2_queued_reply_over_pending_row (s : Submission) (w : World) :
  REDIS_AVAILABLE = true →
  save_upload s = Returned () →
  analysis_table w !! uuid_job s = None →
  rq_enqueue s = Returned () →
  ∃ w',
    analyze_financial_document s w
    = (Returned (mkResponse "queued" (uuid_job s) (submitted_query s) (filename s) None),
       w')
    ∧ rq_jobs w'
      = (rq_jobs w ++ [(uuid_job s, strip (submitted_query s), saved_path s)])%list
    ∧ crew_calls w' = crew_calls w
    ∧ (job_status (uuid_job s) w').1
      = Returned (mkStatusReply (uuid_job s) "pending" None).
Proof.
  intros Hredis Hsave Hfresh Henq. eexists.
  rewrite (analyze_enqueued _ _ Hredis Hsave Hfresh Henq).
  split; [reflexivity|]. split; [reflexivity|]. split; [reflexivity|].
  rewrite (job_status_present _ _ (pending_row s w)); [reflexivity|].
  cbn [analysis_table]. apply lookup_insert_eq.
Qed.

(** C6 (amended). In every state the deployment can reach, the result of a
    'failed' row is the non-empty text "error: " followed by a description;
    and that description is the text of the exception the analysis routine
    raised, copied as it is. *)
Theorem C6_failed_result_quotes_the_exception :
  (∀ w, reachable w →
     ∀ job_id row, analysis_table w !! job_id = Some row →
       db.status row = "failed" →
       ∃ text, db.result row = Some ("error: " +:+ text)
               ∧ "error: " +:+ text ≠ "")
  ∧ (∀ w job_id query file_path row e,
       analysis_table w !! job_id = Some row →
       db.id row = job_id →
       run_crew (crew_calls w) query file_path = Raised e →
       db.result <$> analysis_table (process_job job_id query file_path w).2 !! job_id
       = Some (Some ("error: " +:+ str e)))
  ∧ (∀ s w e,
       REDIS_AVAILABLE = false →
       save_upload s = Returned () →
       analysis_table w !! uuid_job s = None →
       run_crew (crew_calls w) (strip (submitted_query s)) (saved_path s) = Raised e →
       db.result <$> analysis_table (analyze_financial_document s w).2 !! uuid_job s
       = Some (Some ("error: " +:+ str e))).
Proof.
  split; [|split].
  - intros w Hreach job_id row Hrow Hfailed.
    destruct (reachable_table_ok _ Hreach _ _ Hrow) as (_ & Hshape).
    destruct Hshape as [[Hst _]|[[Hst _]|[_ [text Hres]]]];
      [rewrite Hfailed in Hst; discriminate..|].
    exists text. split; [assumption | discriminate].
  - intros w job_id query file_path row e Hrow Hid Hrun. subst job_id.
    rewrite (process_job_present _ _ _ _ _ Hrow). cbn [snd analysis_table].
    rewrite flushed_rewritten, lookup_insert_eq by assumption.
    cbn [fmap option_fmap option_map].
    rewrite (proj2 (proj2 (proj2 (proj2 (proj2 (rewritten_columns _ _ _)))))), Hrun.
    reflexivity.
  - intros s w e Hredis Hsave Hfresh Hrun.
    rewrite (analyze_inline _ _ Hredis Hsave Hfresh). cbn [snd analysis_table].
    rewrite lookup_insert_eq, Hrun. reflexivity.
Qed.

(** C7 (amended). Without the queue library the submission handler runs the
    analysis itself and stores the terminal outcome before it answers. On
    success the reply carries status 'completed' and the result. On failure
    the row is stored as 'failed' with the description, and the caller gets
    an HTTP 500 error carrying the text of the exception instead of a
    reply. *)
Theorem C7_inline_outcome_stored_then_reported (s : Submission) (w : World) :
  REDIS_AVAILABLE = false →
  save_upload s = Returned () →
  analysis_table w !! uuid_job s = None →
  ∃ w' row',
    (analyze_financial_document s w).2 = w'
    ∧ crew_calls w' = S (crew_calls w)
    ∧ rq_jobs w' = rq_jobs w
    ∧ analysis_table w' !! uuid_job s = Some row'
    ∧ match run_crew (crew_calls w) (strip (submitted_query s)) (saved_path s) with
      | Returned text =>
          (analyze_financial_document s w).1
          = Returned (mkResponse "completed" (uuid_job s) (submitted_query s)
                                 (filename s) (Some text))
          ∧ db.status row' = "completed"
          ∧ db.result row' = Some text
      | Raised e =>
          (analyze_financial_document s w).1
          = Raised (HTTPException 500
                      ("Error queuing financial document: "
                       +:+ str (HTTPException 500
                                  ("Error processing document: " +:+ str e))))
          ∧ db.status row' = "failed"
          ∧ db.result row' = Some ("error: " +:+ str e)
      end.
Proof.
  intros Hredis Hsave Hfresh.
  rewrite (analyze_inline _ _ Hredis Hsave Hfresh). cbn [fst snd].
  eexists _, _. split; [reflexivity|]. cbn [crew_calls rq_jobs analysis_table].
  split; [reflexivity|]. split; [reflexivity|].
  split; [apply lookup_insert_eq|].
  destruct (run_crew _ _ _); cbn; auto.
Qed.

(** C8 (amended). When the queue library is available and the enqueue
    operation raises, the caller is told: the handler fails with an HTTP 500
    error whose detail is "Error queuing financial document: " followed by
    the text of the exception. The stored row is left as it was created,
    with status 'pending' and no result; nothing is queued and no analysis
    run is started. *)
Theorem C8_enqueue_failure_reported_row_left_pending (s : Submission) (w : World)
    (e : exn) :
  REDIS_AVAILABLE = true →
  save_upload s = Returned () →
  analysis_table w !! uuid_job s = None →
  rq_enqueue s = Raised e →
  ∃ w',
    analyze_financial_document s w
    = (Raised (HTTPException 500 ("Error queuing financial document: " +:+ str e)), w')
    ∧ rq_jobs w' = rq_jobs w
    ∧ crew_calls w' = crew_calls w
    ∧ (job_status (uuid_job s) w').1
      = Returned (mkStatusReply (uuid_job s) "pending" None).
Proof.
  intros Hredis Hsave Hfresh Henq. eexists.
  rewrite (analyze_enqueue_raised _ _ _ Hredis Hsave Hfresh Henq).
  split; [reflexivity|]. split; [reflexivity|]. split; [reflexivity|].
  rewrite (job_status_present _ _ (pending_row s w)); [reflexivity|].
  cbn [analysis_table]. apply lookup_insert_eq.
Qed.

(** C9. For a job id with no stored row the status query fails with the
    not-found error (HTTP 404, "Job not found") and returns no object; for a
    stored row it returns the row's id, status and result, and in every
    reachable state that id is the one asked for. The query changes nothing
    in the table. *)
Theorem C9_status_query_not_found_or_projection (w : World) (job_id : string) :
  match analysis_table w !! job_id with
  | None =>
      (job_status job_id w).1 = Raised (HTTPException 404 "Job not found")
  | Some row =>
      (job_status job_id w).1
      = Returned (mkStatusReply (db.id row) (db.status row) (db.result row))
      ∧ (reachable w → db.id row = job_id)
  end
  ∧ analysis_table (job_status job_id w).2 = analysis_table w.
Proof.
  split; [|apply job_status_table].
  destruct (analysis_table w !! job_id) as [row|] eqn:Hrow.
  - rewrite (job_status_present _ _ _ Hrow). split; [reflexivity|].
    intros Hreach. apply (reachable_table_ok _ Hreach _ _ Hrow).
  - rewrite (job_status_absent _ _ Hrow). reflexivity.
Qed.

End Endpoints.

(** ** Text extraction *)

Section Extraction.

Variable fs : string → file_state.
Variable PdfReader_available : bool.
Variable pdf_pages : list Byte.byte → outcome (list (outcome (option string))).
Variable decode_utf8_ignore : list Byte.byte → outcome string.

Lemma read_as_text_returns (path : string) :
  ∃ text, read_as_text fs decode_utf8_ignore path = Returned text.
Proof.
  unfold read_as_text.
  destruct (open_read fs path) as [data|e]; [|eauto].
  destruct (decode_utf8_ignore data); eauto.
Qed.

(** C10. Whatever the path, whatever the file system holds there, and
    whatever the PDF library and the decoder do, the text extraction routine
    returns a string and raises nothing; when the file does not exist or
    cannot be opened for reading, the string is empty. *)
Theorem C10_read_data_tool_never_raises (path : string) :
  (∃ text,
     read_data_tool fs PdfReader_available pdf_pages decode_utf8_ignore path
     = Returned text)
  ∧ (fs path = Missing ∨ fs path = Unreadable →
     read_data_tool fs PdfReader_available pdf_pages decode_utf8_ignore path
     = Returned "").
Proof.
  split.
  - unfold read_data_tool.
    destruct (negb (os_path_exists fs path)); [eauto|].
    destruct PdfReader_available; [|apply read_as_text_returns].
    destruct (read_pdf fs pdf_pages path); [eauto | apply read_as_text_returns].
  - unfold read_data_tool, os_path_exists, read_pdf, PdfReader, read_as_text, open_read.
    intros [Hfs|Hfs]; rewrite Hfs; [reflexivity|]. cbn.
    destruct PdfReader_available; reflexivity.
Qed.

End Extraction.

(** ** The string helpers and the extraction routine at concrete inputs *)

Example strip_example :
  strip (String "009" "  summarize " +:+ newline) = "summarize"
  ∧ strip "   " = ""
  ∧ strip "a b" = "a b".
Proof. repeat split. Qed.

Example splitlines_example :
  splitlines ("ab" +:+ String "013" newline +:+ "c" +:+ newline) = ["ab"; "c"]
  ∧ splitlines newline = [""]
  ∧ splitlines "" = []
  ∧ splitlines ("a" +:+ newline +:+ newline +:+ "b") = ["a"; ""; "b"].
Proof. repeat split. Qed.

Example normalize_whitespace_example :
  normalize_whitespace ("  Revenue  " +:+ newline +:+ "   " +:+ newline +:+ " 12 %")
  = "Revenue" +:+ newline +:+ "12 %".
Proof. reflexivity. Qed.

(** Pages are normalised and joined by blank lines; a page without text
    contributes an empty entry. *)
Example read_data_tool_pdf_example :
  read_data_tool sample_fs true
    (λ _, Returned [Returned (Some (" A " +:+ newline +:+ newline +:+ "B"));
                    Returned None;
                    Returned (Some "C")])
    ascii_decode "data/notes.txt"
  = Returned ("A" +:+ newline +:+ "B" +:+ newline +:+ newline
              +:+ newline +:+ newline +:+ "C").
Proof. reflexivity. Qed.

(** A page that raises sends the routine to the plain-text fallback, and so
    does a missing PDF library. *)
Example read_data_tool_fallback_example :
  read_data_tool sample_fs true
    (λ _, Returned [Returned (Some "A"); Raised (Exception "broken page")])
    ascii_decode "data/notes.txt"
  = Returned "hi"
  ∧ read_data_tool sample_fs false rejecting_pdf ascii_decode "data/notes.txt"
    = Returned "hi"
  ∧ read_data_tool sample_fs true rejecting_pdf ascii_decode "data/absent.pdf"
    = Returned "".
Proof. repeat split. Qed.

(** ** The statements at concrete inputs *)

Lemma completed_world_reachable : @reachable flaky_deployment completed_world.
Proof.
  exists fresh_world. split; [repeat split|].
  eapply rtc_l; [apply (@step_submit flaky_deployment doc1)|].
  eapply rtc_l; [apply (@step_worker flaky_deployment 1)|].
  eapply rtc_l; [apply (@step_clock flaky_deployment 5); vm_compute; discriminate|].
  apply rtc_refl.
Qed.

Lemma two_queued_world_reachable : @reachable recovering_deployment two_queued_world.
Proof.
  exists fresh_world. split; [repeat split|].
  eapply rtc_l; [apply (@step_submit recovering_deployment doc1)|].
  eapply rtc_l; [apply (@step_submit recovering_deployment doc2)|].
  apply rtc_refl.
Qed.

(** After a failing first job the worker goes on to the second one. *)
Example worker_loop_goes_on_after_failure :
  (db.status <$> analysis_table (@worker_loop recovering_deployment 2 two_queued_world).2
                   !! "j-1") = Some "failed"
  ∧ (db.status <$> analysis_table (@worker_loop recovering_deployment 2 two_queued_world).2
                     !! "j-2") = Some "completed"
  ∧ db.query <$> analysis_table two_queued_world !! "j-2" = Some default_query.
Proof. vm_compute. repeat split. Qed.

(** C1, as stated, fails: [doc1] is stored as 'completed'; a second
    delivery starts a second analysis run, which raises, and the row's
    result and [updated_at] are overwritten. *)
Lemma C1_redelivery_is_not_a_noop :
  analysis_table completed_world !! "j-1" = Some completed_row
  ∧ terminal (db.status completed_row)
  ∧ crew_calls completed_world = 1%nat
  ∧ crew_calls redelivered_world = 2%nat
  ∧ analysis_table redelivered_world !! "j-1"
    = Some (db.mkAnalysis "j-1" "summarize" "data/financial_document_f-1.pdf"
              (Some "error: rate limit exceeded") "failed" 0 5)
  ∧ crew_calls redelivered_world ≠ crew_calls completed_world
  ∧ Some "error: rate limit exceeded" ≠ db.result completed_row
  ∧ 5 ≠ db.updated_at completed_row.
Proof.
  split; [vm_compute; reflexivity|]. split; [left; reflexivity|].
  split; [vm_compute; reflexivity|]. split; [vm_compute; reflexivity|].
  split; [vm_compute; reflexivity|]. repeat split; vm_compute; discriminate.
Qed.

Lemma C1_witness :
  analysis_table completed_world !! "j-1" = Some completed_row
  ∧ db.id completed_row = "j-1"
  ∧ terminal (db.status completed_row)
  ∧ ∃ w' row',
      @process_job flaky_deployment "j-1" "summarize"
        "data/financial_document_f-1.pdf" completed_world = (Returned (), w')
      ∧ crew_calls w' = S (crew_calls completed_world)
      ∧ analysis_table w' !! "j-1" = Some row'
      ∧ (db.status row' = "failed"
         ∧ db.result row' = Some "error: rate limit exceeded")
      ∧ db.updated_at row'
        = if decide (db.status row' = db.status completed_row
                     ∧ db.result row' = db.result completed_row)
          then db.updated_at completed_row else utcnow completed_world.
Proof.
  assert (analysis_table completed_world !! "j-1" = Some completed_row) as Hrow
    by (vm_compute; reflexivity).
  assert (terminal (db.status completed_row)) as Hterm by (left; reflexivity).
  split; [exact Hrow|]. split; [reflexivity|]. split; [exact Hterm|].
  exact (@C1_redelivery_runs_again flaky_deployment completed_world "j-1" "summarize"
           "data/financial_document_f-1.pdf" completed_row Hrow eq_refl Hterm).
Defined.

(** C2, as stated, fails: the reply to [doc1] says 'queued' while the
    stored row, as the status query reports it, still says 'pending'. *)
Lemma C2_reply_queued_row_pending :
  (@analyze_financial_document queued_deployment doc1 fresh_world).1
  = Returned (mkResponse "queued" "j-1" "summarize" "doc1.pdf" None)
  ∧ (job_status "j-1"
       (@analyze_financial_document queued_deployment doc1 fresh_world).2).1
    = Returned (mkStatusReply "j-1" "pending" None)
  ∧ (job_status "j-1"
       (@analyze_financial_document queued_deployment doc1 fresh_world).2).1
    ≠ Returned (mkStatusReply "j-1" "queued" None).
Proof.
  split; [vm_compute; reflexivity|]. split; [vm_compute; reflexivity|].
  vm_compute. discriminate.
Qed.

Lemma C2_witness :
  @REDIS_AVAILABLE queued_deployment = true
  ∧ save_upload doc1 = Returned ()
  ∧ analysis_table fresh_world !! uuid_job doc1 = None
  ∧ rq_enqueue doc1 = Returned ()
  ∧ ∃ w',
      @analyze_financial_document queued_deployment doc1 fresh_world
      = (Returned (mkResponse "queued" (uuid_job doc1) (submitted_query doc1)
                              (filename doc1) None), w')
      ∧ rq_jobs w'
        = (rq_jobs fresh_world
           ++ [(uuid_job doc1, strip (submitted_query doc1), saved_path doc1)])%list
      ∧ crew_calls w' = crew_calls fresh_world
      ∧ (job_status (uuid_job doc1) w').1
        = Returned (mkStatusReply (uuid_job doc1) "pending" None).
Proof.
  repeat (split; [reflexivity|]).
  exact (@C2_queued_reply_over_pending_row queued_deployment doc1 fresh_world
           eq_refl eq_refl eq_refl eq_refl).
Defined.

(** C3, as stated, fails: an update for an unknown id returns normally
    instead of signalling, and an update of the 'completed' row of [doc1] is
    accepted and turns it into a 'failed' row. *)
Lemma C3_update_accepted_on_terminal_row :
  analysis_table fresh_world !! "nonexistent" = None
  ∧ @process_job flaky_deployment "nonexistent" "summarize" "data/none.pdf" fresh_world
    = (Returned (), fresh_world)
  ∧ analysis_table completed_world !! "j-1" = Some completed_row
  ∧ db.status completed_row = "completed"
  ∧ (@process_job flaky_deployment "j-1" "summarize"
       "data/financial_document_f-1.pdf" completed_world).1 = Returned ()
  ∧ analysis_table redelivered_world !! "j-1"
    = Some (db.mkAnalysis "j-1" "summarize" "data/financial_document_f-1.pdf"
              (Some "error: rate limit exceeded") "failed" 0 5)
  ∧ analysis_table redelivered_world !! "j-1"
    ≠ analysis_table completed_world !! "j-1".
Proof.
  split; [reflexivity|]. split; [vm_compute; reflexivity|].
  split; [vm_compute; reflexivity|]. split; [reflexivity|].
  split; [vm_compute; reflexivity|]. split; [vm_compute; reflexivity|].
  vm_compute. discriminate.
Qed.

Lemma C3_witness :
  analysis_table completed_world !! "j-1" = Some completed_row
  ∧ db.id completed_row = "j-1"
  ∧ terminal (db.status completed_row)
  ∧ ∃ w' row',
      @process_job flaky_deployment "j-1" "summarize"
        "data/financial_document_f-1.pdf" completed_world = (Returned (), w')
      ∧ analysis_table w' = <["j-1" := row']> (analysis_table completed_world)
      ∧ db.id row' = "j-1"
      ∧ db.query row' = db.query completed_row
      ∧ db.file_path row' = db.file_path completed_row
      ∧ db.created_at row' = db.created_at completed_row
      ∧ db.status row' = "failed"
      ∧ db.result row' = Some "error: rate limit exceeded".
Proof.
  assert (analysis_table completed_world !! "j-1" = Some completed_row) as Hrow
    by (vm_compute; reflexivity).
  assert (terminal (db.status completed_row)) as Hterm by (left; reflexivity).
  split; [exact Hrow|]. split; [reflexivity|]. split; [exact Hterm|].
  exact (proj2 (@C3_update_is_silent_and_unconditional flaky_deployment completed_world
                  "j-1" "summarize" "data/financial_document_f-1.pdf")
           completed_row Hrow eq_refl Hterm).
Defined.

(** C6, as stated, fails: the crew raises with a traceback that quotes an
    API key, and the stored result of the 'failed' row contains that text
    as it is. *)
Lemma C6_failed_result_holds_raw_exception_text :
  @run_crew failing_deployment 0 "summarize" "data/financial_document_f-1.pdf"
  = Raised (Exception leaked_text)
  ∧ analysis_table (@analyze_financial_document failing_deployment doc1 fresh_world).2
      !! "j-1"
    = Some (db.mkAnalysis "j-1" "summarize" "data/financial_document_f-1.pdf"
              (Some ("error: " +:+ leaked_text)) "failed" 0 0)
  ∧ contains leaked_text ("error: " +:+ leaked_text) = true
  ∧ contains "Traceback" ("error: " +:+ leaked_text) = true.
Proof.
  split; [reflexivity|]. split; [vm_compute; reflexivity|].
  split; vm_compute; reflexivity.
Qed.

Lemma C6_witness :
  @REDIS_AVAILABLE failing_deployment = false
  ∧ save_upload doc1 = Returned ()
  ∧ analysis_table fresh_world !! uuid_job doc1 = None
  ∧ @run_crew failing_deployment (crew_calls fresh_world)
      (strip (submitted_query doc1)) (saved_path doc1)
    = Raised (Exception leaked_text)
  ∧ db.result
      <$> analysis_table (@analyze_financial_document failing_deployment doc1
                            fresh_world).2 !! uuid_job doc1
    = Some (Some ("error: " +:+ @str failing_deployment (Exception leaked_text))).
Proof.
  repeat (split; [reflexivity|]).
  exact (proj2 (proj2 (@C6_failed_result_quotes_the_exception failing_deployment))
           doc1 fresh_world (Exception leaked_text) eq_refl eq_refl eq_refl eq_refl).
Defined.

(** C7, as stated, fails: without the queue library, when the crew raises
    the caller receives no reply with the terminal state but an HTTP 500
    error, although the row is stored as 'failed'. *)
Lemma C7_inline_failure_is_a_request_failure :
  @REDIS_AVAILABLE failing_deployment = false
  ∧ (@analyze_financial_document failing_deployment doc1 fresh_world).1
    = Raised (HTTPException 500
                ("Error queuing financial document: 500: Error processing document: "
                 +:+ leaked_text))
  ∧ (job_status "j-1"
       (@analyze_financial_document failing_deployment doc1 fresh_world).2).1
    = Returned (mkStatusReply "j-1" "failed" (Some ("error: " +:+ leaked_text))).
Proof.
  split; [reflexivity|]. split; vm_compute; reflexivity.
Qed.

Lemma C7_witness :
  @REDIS_AVAILABLE inline_deployment = false
  ∧ save_upload doc1 = Returned ()
  ∧ analysis_table fresh_world !! uuid_job doc1 = None
  ∧ ∃ w' row',
      (@analyze_financial_document inline_deployment doc1 fresh_world).2 = w'
      ∧ crew_calls w' = S (crew_calls fresh_world)
      ∧ rq_jobs w' = rq_jobs fresh_world
      ∧ analysis_table w' !! uuid_job doc1 = Some row'
      ∧ ((@analyze_financial_document inline_deployment doc1 fresh_world).1
         = Returned (mkResponse "completed" (uuid_job doc1) (submitted_query doc1)
                                (filename doc1) (Some no_anomalies))
         ∧ db.status row' = "completed"
         ∧ db.result row' = Some no_anomalies).
Proof.
  repeat (split; [reflexivity|]).
  exact (@C7_inline_outcome_stored_then_reported inline_deployment doc1 fresh_world
           eq_refl eq_refl eq_refl).
Defined.

(** C8, as stated, fails: the broker refuses the connection, the caller is
    told with an HTTP 500 error, but the stored row is not marked 'failed':
    it stays 'pending' with no result. *)
Lemma C8_enqueue_failure_leaves_row_pending :
  @REDIS_AVAILABLE queued_deployment = true
  ∧ (@analyze_financial_document queued_deployment doc1_unreachable fresh_world).1
    = Raised (HTTPException 500
                "Error queuing financial document: Error 111 connecting to localhost:6379. Connection refused.")
  ∧ (job_status "j-1"
       (@analyze_financial_document queued_deployment doc1_unreachable fresh_world).2).1
    = Returned (mkStatusReply "j-1" "pending" None)
  ∧ (db.status
       <$> analysis_table
             (@analyze_financial_document queued_deployment doc1_unreachable
                fresh_world).2 !! "j-1")
    ≠ Some "failed".
Proof.
  split; [reflexivity|]. split; [vm_compute; reflexivity|].
  split; [vm_compute; reflexivity|]. vm_compute. discriminate.
Qed.

Lemma C8_witness :
  @REDIS_AVAILABLE queued_deployment = true
  ∧ save_upload doc1_unreachable = Returned ()
  ∧ analysis_table fresh_world !! uuid_job doc1_unreachable = None
  ∧ rq_enqueue doc1_unreachable
    = Raised (Exception "Error 111 connecting to localhost:6379. Connection refused.")
  ∧ ∃ w',
      @analyze_financial_document queued_deployment doc1_unreachable fresh_world
      = (Raised (HTTPException 500
                   ("Error queuing financial document: "
                    +:+ @str queued_deployment
                          (Exception "Error 111 connecting to localhost:6379. Connection refused."))),
         w')
      ∧ rq_jobs w' = rq_jobs fresh_world
      ∧ crew_calls w' = crew_calls fresh_world
      ∧ (job_status (uuid_job doc1_unreachable) w').1
        = Returned (mkStatusReply (uuid_job doc1_unreachable) "pending" None).
Proof.
  repeat (split; [reflexivity|]).
  exact (@C8_enqueue_failure_reported_row_left_pending queued_deployment
           doc1_unreachable fresh_world _ eq_refl eq_refl eq_refl eq_refl).
Defined.

Lemma C9_witness :
  (job_status "nonexistent" completed_world).1
  = Raised (HTTPException 404 "Job not found")
  ∧ ((job_status "j-1" completed_world).1
     = Returned (mkStatusReply "j-1" "completed" (Some no_anomalies))
     ∧ analysis_table (job_status "j-1" completed_world).2
       = analysis_table completed_world).
Proof.
  split.
  - exact (proj1 (@C9_status_query_not_found_or_projection flaky_deployment
                    completed_world "nonexistent")).
  - split; [|exact (proj2 (@C9_status_query_not_found_or_projection flaky_deployment
                             completed_world "j-1"))].
    vm_compute. reflexivity.
Defined.

Lemma C10_witness :
  (sample_fs "data/locked.pdf" = Missing ∨ sample_fs "data/locked.pdf" = Unreadable)
  ∧ read_data_tool sample_fs true rejecting_pdf ascii_decode "data/locked.pdf"
    = Returned ""
  ∧ read_data_tool sample_fs true rejecting_pdf ascii_decode "data/notes.txt"
    = Returned "hi".
Proof.
  assert (sample_fs "data/locked.pdf" = Missing ∨ sample_fs "data/locked.pdf" = Unreadable)
    as Hfs by (right; reflexivity).
  split; [exact Hfs|]. split; [|reflexivity].
  exact (proj2 (C10_read_data_tool_never_raises sample_fs true rejecting_pdf
                  ascii_decode "data/locked.pdf") Hfs).
Defined.

(** ** Further properties of the submission handler *)

Section Submissions.

Context `{Deployment}.

Lemma lstrip_blank (s : string) : blank s = true → lstrip s = "".
Proof.
  induction s as [|c s IH]; [reflexivity|]. cbn.
  intros [Hc Hs]%andb_true_iff. rewrite Hc. auto.
Qed.

Lemma strip_blank (s : string) : blank s = true → strip s = "".
Proof. intros Hs. unfold strip. rewrite lstrip_blank by assumption. reflexivity. Qed.

Lemma submitted_query_nonempty (s : Submission) : submitted_query s ≠ "".
Proof. unfold submitted_query. case_decide; [discriminate | assumption]. Qed.

Lemma reply_row (s : Submission) (w w' : World) (resp : Response) :
  analyze_financial_document s w = (Returned resp, w') →
  resp_job_id resp = uuid_job s
  ∧ resp_query resp = submitted_query s
  ∧ ∃ row, analysis_table w' !! uuid_job s = Some row
           ∧ db.query row = strip (submitted_query s).
Proof.
  destruct (save_upload s) as [[]|e] eqn:Hsave;
    [|rewrite (analyze_save_raised _ _ _ Hsave); discriminate].
  destruct (analysis_table w !! uuid_job s) as [old|] eqn:Hfresh;
    [rewrite (analyze_id_taken _ _ _ Hsave Hfresh); discriminate|].
  destruct REDIS_AVAILABLE eqn:Hredis.
  - destruct (rq_enqueue s) as [[]|e] eqn:Henq;
      [|rewrite (analyze_enqueue_raised _ _ _ Hredis Hsave Hfresh Henq); discriminate].
    rewrite (analyze_enqueued _ _ Hredis Hsave Hfresh Henq).
    intros [= <- <-]. cbn [resp_job_id resp_query analysis_table].
    split; [reflexivity|]. split; [reflexivity|].
    eexists. rewrite lookup_insert_eq. split; reflexivity.
  - rewrite (analyze_inline _ _ Hredis Hsave Hfresh).
    destruct (run_crew _ _ _) as [text|e] eqn:Hrun; [|discriminate].
    intros [= <- <-]. cbn [resp_job_id resp_query analysis_table].
    split; [reflexivity|]. split; [reflexivity|].
    eexists. rewrite lookup_insert_eq. split; reflexivity.
Qed.

(** X1. A reply of [POST /analyze] always names a row this submission has
    just created: the job id was free before, and the row stored under it
    carries the stripped query of the reply (the form field, or the default
    when the field is empty), the path the upload was saved under and the
    current instant as creation time. With the queue library the reply says
    'queued' and carries no result while the row is 'pending'; without it
    reply and row both say 'completed' and carry the same result. *)
Theorem X1_reply_names_the_new_row (s : Submission) (w w' : World) (resp : Response) :
  analyze_financial_document s w = (Returned resp, w') →
  resp_job_id resp = uuid_job s
  ∧ resp_file_processed resp = filename s
  ∧ resp_query resp = (if decide (form_query s = "") then default_query else form_query s)
  ∧ resp_query resp ≠ ""
  ∧ analysis_table w !! uuid_job s = None
  ∧ ∃ row,
      analysis_table w' !! uuid_job s = Some row
      ∧ db.id row = uuid_job s
      ∧ db.query row = strip (resp_query resp)
      ∧ db.file_path row = "data/financial_document_" +:+ uuid_file s +:+ ".pdf"
      ∧ db.created_at row = utcnow w
      ∧ ((REDIS_AVAILABLE = true ∧ resp_status resp = "queued"
          ∧ resp_result resp = None
          ∧ db.status row = "pending" ∧ db.result row = None)
         ∨ (REDIS_AVAILABLE = false ∧ resp_status resp = "completed"
            ∧ db.status row = "completed"
            ∧ is_Some (resp_result resp)
            ∧ db.result row = resp_result resp)).
Proof.
  destruct (save_upload s) as [[]|e] eqn:Hsave;
    [|rewrite (analyze_save_raised _ _ _ Hsave); discriminate].
  destruct (analysis_table w !! uuid_job s) as [old|] eqn:Hfresh;
    [rewrite (analyze_id_taken _ _ _ Hsave Hfresh); discriminate|].
  pose proof (submitted_query_nonempty s) as Hq.
  destruct REDIS_AVAILABLE eqn:Hredis.
  - destruct (rq_enqueue s) as [[]|e] eqn:Henq;
      [|rewrite (analyze_enqueue_raised _ _ _ Hredis Hsave Hfresh Henq); discriminate].
    rewrite (analyze_enqueued _ _ Hredis Hsave Hfresh Henq).
    intros [= <- <-]. cbn [resp_job_id resp_file_processed resp_query resp_status
                           resp_result analysis_table].
    repeat (split; [reflexivity || assumption|]).
    exists (pending_row s w). rewrite lookup_insert_eq.
    repeat (split; [reflexivity|]). left. repeat split.
  - rewrite (analyze_inline _ _ Hredis Hsave Hfresh).
    destruct (run_crew _ _ _) as [text|e] eqn:Hrun; [|discriminate].
    intros [= <- <-]. cbn [resp_job_id resp_file_processed resp_query resp_status
                           resp_result analysis_table].
    repeat (split; [reflexivity || assumption|]).
    eexists. rewrite lookup_insert_eq. split; [reflexivity|].
    repeat (split; [reflexivity|]). right. repeat split. eauto.
Qed.

(** X2. Without the queue library, whenever [POST /analyze] replies, an
    immediate [GET /status/{job_id}] for the id of the reply returns the
    same status and the same result as the reply. *)
Theorem X2_inline_poll_agrees_with_reply (s : Submission) (w w' : World)
    (resp : Response) :
  REDIS_AVAILABLE = false →
  analyze_financial_document s w = (Returned resp, w') →
  (job_status (resp_job_id resp) w').1
  = Returned (mkStatusReply (resp_job_id resp) (resp_status resp) (resp_result resp)).
Proof.
  intros Hredis.
  destruct (save_upload s) as [[]|e] eqn:Hsave;
    [|rewrite (analyze_save_raised _ _ _ Hsave); discriminate].
  destruct (analysis_table w !! uuid_job s) as [old|] eqn:Hfresh;
    [rewrite (analyze_id_taken _ _ _ Hsave Hfresh); discriminate|].
  rewrite (analyze_inline _ _ Hredis Hsave Hfresh).
  destruct (run_crew _ _ _) as [text|e] eqn:Hrun; [|discriminate].
  intros [= <- <-]. cbn [resp_job_id resp_status resp_result].
  erewrite job_status_present by (cbn [analysis_table]; apply lookup_insert_eq).
  reflexivity.
Qed.

(** X3. A submission never modifies or removes a row that is already
    stored, not even when the UUID drawn for the new row collides with a
    stored id (the insert fails instead of overwriting); the only key whose
    entry can differ afterwards is the drawn job id. *)
Theorem X3_submission_keeps_existing_rows (s : Submission) (w : World) :
  (∀ job_id row,
     analysis_table w !! job_id = Some row →
     analysis_table (analyze_financial_document s w).2 !! job_id = Some row)
  ∧ (∀ job_id,
       job_id ≠ uuid_job s →
       analysis_table (analyze_financial_document s w).2 !! job_id
       = analysis_table w !! job_id).
Proof.
  destruct (analyze_table s w) as [Hsame|(Hfresh & row' & _ & Hnew)].
  - rewrite Hsame. auto.
  - rewrite Hnew. split.
    + intros job_id row Hrow. rewrite lookup_insert_ne; [assumption | congruence].
    + intros job_id Hne. apply lookup_insert_ne. congruence.
Qed.

(** X4. One submission starts at most one analysis run and queues at most
    one call, and never both: with the queue library the handler starts no
    run and the queue is unchanged or extended by the call for the new job;
    without it the queue is unchanged and at most one run is started. The
    clock reading is not changed by the handler. *)
Theorem X4_submission_runs_or_enqueues (s : Submission) (w : World) :
  utcnow (analyze_financial_document s w).2 = utcnow w
  ∧ (if REDIS_AVAILABLE
     then crew_calls (analyze_financial_document s w).2 = crew_calls w
          ∧ (rq_jobs (analyze_financial_document s w).2 = rq_jobs w
             ∨ rq_jobs (analyze_financial_document s w).2
               = (rq_jobs w
                  ++ [(uuid_job s,
                       strip (if decide (form_query s = "") then default_query
                              else form_query s),
                       "data/financial_document_" +:+ uuid_file s +:+ ".pdf")])%list)
     else rq_jobs (analyze_financial_document s w).2 = rq_jobs w
          ∧ (crew_calls (analyze_financial_document s w).2 = crew_calls w
             ∨ crew_calls (analyze_financial_document s w).2 = S (crew_calls w))).
Proof.
  destruct (save_upload s) as [[]|e] eqn:Hsave;
    [|rewrite (analyze_save_raised _ _ _ Hsave); destruct REDIS_AVAILABLE; auto].
  destruct (analysis_table w !! uuid_job s) as [old|] eqn:Hfresh;
    [rewrite (analyze_id_taken _ _ _ Hsave Hfresh); destruct REDIS_AVAILABLE; auto|].
  destruct REDIS_AVAILABLE eqn:Hredis.
  - destruct (rq_enqueue s) as [[]|e] eqn:Henq.
    + rewrite (analyze_enqueued _ _ Hredis Hsave Hfresh Henq). cbn. auto.
    + rewrite (analyze_enqueue_raised _ _ _ Hredis Hsave Hfresh Henq). cbn. auto.
  - rewrite (analyze_inline _ _ Hredis Hsave Hfresh). cbn. auto.
Qed.

(** X5. A form query that is not empty but consists of whitespace only is
    not replaced by the default: whenever such a submission is answered, the
    reply repeats the whitespace, and the stored row holds the empty query. *)
Theorem X5_blank_query_is_stored_empty (s : Submission) (w w' : World)
    (resp : Response) :
  form_query s ≠ "" →
  blank (form_query s) = true →
  analyze_financial_document s w = (Returned resp, w') →
  resp_query resp = form_query s
  ∧ db.query <$> analysis_table w' !! resp_job_id resp = Some "".
Proof.
  intros Hne Hblank Hrun.
  destruct (reply_row s w w' resp Hrun) as (Hid & Hq & row & Hrow & Hquery).
  unfold submitted_query in Hq, Hquery. rewrite decide_False in Hq, Hquery by assumption.
  split; [assumption|]. rewrite Hid, Hrow. cbn. rewrite Hquery.
  rewrite strip_blank by assumption. reflexivity.
Qed.

End Submissions.

(** ** Further invariants of the lifecycle *)

Section Histories.

Context `{Deployment}.

Lemma analyze_effect (s : Submission) (w : World) :
  utcnow (analyze_financial_document s w).2 = utcnow w
  ∧ ((analysis_table (analyze_financial_document s w).2 = analysis_table w
      ∧ rq_jobs (analyze_financial_document s w).2 = rq_jobs w)
     ∨ (analysis_table w !! uuid_job s = None
        ∧ ∃ row,
            analysis_table (analyze_financial_document s w).2
            = <[uuid_job s := row]> (analysis_table w)
            ∧ db.created_at row = utcnow w
            ∧ db.updated_at row = utcnow w
            ∧ db.query row = strip (submitted_query s)
            ∧ db.file_path row = saved_path s
            ∧ (rq_jobs (analyze_financial_document s w).2 = rq_jobs w
               ∨ rq_jobs (analyze_financial_document s w).2
                 = (rq_jobs w
                    ++ [(uuid_job s, strip (submitted_query s), saved_path s)])%list))).
Proof.
  destruct (save_upload s) as [[]|e] eqn:Hsave;
    [|rewrite (analyze_save_raised _ _ _ Hsave); auto].
  destruct (analysis_table w !! uuid_job s) as [old|] eqn:Hfresh;
    [rewrite (analyze_id_taken _ _ _ Hsave Hfresh); auto|].
  destruct REDIS_AVAILABLE eqn:Hredis.
  - destruct (rq_enqueue s) as [[]|e] eqn:Henq.
    + rewrite (analyze_enqueued _ _ Hredis Hsave Hfresh Henq).
      split; [reflexivity|]. right. split; [reflexivity|].
      exists (pending_row s w). cbn. auto 10.
    + rewrite (analyze_enqueue_raised _ _ _ Hredis Hsave Hfresh Henq).
      split; [reflexivity|]. right. split; [reflexivity|].
      exists (pending_row s w). cbn. auto 10.
  - rewrite (analyze_inline _ _ Hredis Hsave Hfresh).
    split; [reflexivity|]. right. split; [reflexivity|].
    cbn [snd analysis_table rq_jobs]. rewrite insert_insert_eq.
    eexists. split; [reflexivity|].
    destruct (run_crew _ _ _); cbn; auto 10.
Qed.

Lemma worker_loop_invariant (P : World → Prop) :
  (∀ w job_id query file_path rest,
     rq_jobs w = (job_id, query, file_path) :: rest →
     P w → P (process_job job_id query file_path (with_rq_jobs rest w)).2) →
  ∀ n w, P w → P (worker_loop n w).2.
Proof.
  intros Hstep n. induction n as [|n IH]; intros w Hw; [exact Hw|].
  destruct (rq_jobs w) as [|[[job_id query] file_path] rest] eqn:Hq.
  - rewrite (worker_loop_empty _ _ Hq). exact Hw.
  - rewrite (worker_loop_cons _ _ _ _ _ _ Hq). apply IH. eapply Hstep; eassumption.
Qed.

Lemma process_job_stamps (w : World) (job_id query file_path : string) :
  keyed w → stamps_ok w → stamps_ok (process_job job_id query file_path w).2.
Proof.
  intros Hkey Hst other row'.
  rewrite (proj1 (proj2 (process_job_counters w job_id query file_path))).
  destruct (decide (other = job_id)) as [->|Hne].
  - rewrite process_job_lookup_eq by assumption.
    destruct (analysis_table w !! job_id) as [row|] eqn:Hrow; [|discriminate].
    cbn. intros [= <-]. destruct (Hst _ _ Hrow) as [Hcu Hun].
    unfold rewritten. case_decide; [auto|].
    destruct (run_crew _ _ _); cbn; lia.
  - rewrite process_job_lookup_ne by assumption. apply Hst.
Qed.

Lemma process_job_queue_ok (w : World) (job_id query file_path : string) :
  keyed w → queue_ok w → queue_ok (process_job job_id query file_path w).2.
Proof.
  intros Hkey Hq j q f.
  rewrite (proj1 (process_job_counters w job_id query file_path)). intros Hin.
  destruct (Hq _ _ _ Hin) as (row & Hrow & Hquery & Hpath).
  destruct (process_job_evolves w job_id query file_path Hkey _ _ Hrow)
    as (row' & Hrow' & _ & Hq' & Hf' & _).
  exists row'. split; [assumption|]. split; congruence.
Qed.

Lemma step_stamps (w w' : World) :
  keyed w → stamps_ok w → step w w' → stamps_ok w'.
Proof.
  intros Hkey Hst Hstep. destruct Hstep as [s w|j w|n w|j q f w|t w Hle].
  - destruct (analyze_effect s w) as (Hnow & [[Ht _]|(_ & row & Ht & Hc & Hu & _)]);
      intros job_id row'; rewrite Ht, Hnow; [apply Hst|].
    rewrite lookup_insert. case_decide; [intros [= <-]; lia | apply Hst].
  - intros job_id row. rewrite job_status_table.
    destruct (analysis_table w !! j) as [r|] eqn:Hr;
      [rewrite (job_status_present _ _ _ Hr) | rewrite (job_status_absent _ _ Hr)];
      apply Hst.
  - assert (keyed (worker_loop n w).2 ∧ stamps_ok (worker_loop n w).2) as [_ ?];
      [|assumption].
    apply (worker_loop_invariant (λ w, keyed w ∧ stamps_ok w)); [|auto].
    intros w0 j q f rest _ [Hk Hs]. split.
    + apply process_job_keyed. exact Hk.
    + apply process_job_stamps; [exact Hk | exact Hs].
  - apply process_job_stamps; assumption.
  - intros job_id row Hrow. destruct (Hst _ _ Hrow). cbn. lia.
Qed.

Lemma step_queue_ok (w w' : World) :
  keyed w → queue_ok w → step w w' → queue_ok w'.
Proof.
  intros Hkey Hq Hstep. destruct Hstep as [s w|j w|n w|j q f w|t w Hle].
  - destruct (analyze_effect s w)
      as (_ & [[Ht Hsame]|(Hfresh & row & Ht & _ & _ & Hquery & Hpath & Hqueue)]);
      intros j q f; rewrite Ht.
    + rewrite Hsame. apply Hq.
    + assert (∀ j q f, (j, q, f) ∈ rq_jobs w →
                ∃ r, <[uuid_job s := row]> (analysis_table w) !! j = Some r
                     ∧ db.query r = q ∧ db.file_path r = f) as Hold.
      { intros j0 q0 f0 Hin. destruct (Hq _ _ _ Hin) as (r & Hr & ? & ?).
        exists r. rewrite lookup_insert_ne by congruence. auto. }
      destruct Hqueue as [-> | ->]; [apply Hold|].
      rewrite elem_of_app, list_elem_of_singleton. intros [Hin|[= -> -> ->]];
        [apply Hold; assumption|].
      exists row. rewrite lookup_insert_eq. auto.
  - intros j0 q0 f0. rewrite job_status_table.
    destruct (analysis_table w !! j) as [r|] eqn:Hr;
      [rewrite (job_status_present _ _ _ Hr) | rewrite (job_status_absent _ _ Hr)];
      apply Hq.
  - assert (keyed (worker_loop n w).2 ∧ queue_ok (worker_loop n w).2) as [_ ?];
      [|assumption].
    apply (worker_loop_invariant (λ w, keyed w ∧ queue_ok w)); [|auto].
    intros w0 j q f rest Hrest [Hk Hs].
    assert (queue_ok (with_rq_jobs rest w0)) as Hs'.
    { intros j0 q0 f0 Hin. apply Hs. rewrite Hrest. apply elem_of_cons. auto. }
    split.
    + apply process_job_keyed. exact Hk.
    + apply process_job_queue_ok; [exact Hk | exact Hs'].
  - apply process_job_queue_ok; assumption.
  - exact Hq.
Qed.

Lemma reachable_invariants (w : World) :
  reachable w → table_ok w ∧ stamps_ok w ∧ queue_ok w.
Proof.
  intros (w0 & (Hempty & Hqueue & _) & Hsteps).
  assert (table_ok w0 ∧ stamps_ok w0 ∧ queue_ok w0) as Hinv.
  { split; [|split].
    - intros job_id row. rewrite Hempty, lookup_empty. discriminate.
    - intros job_id row. rewrite Hempty, lookup_empty. discriminate.
    - intros j q f. rewrite Hqueue. intros Hin. inversion Hin. }
  clear Hempty Hqueue. induction Hsteps as [|a b c Hstep _ IH]; [assumption|].
  destruct Hinv as (Hok & Hst & Hq). apply IH.
  pose proof (table_ok_keyed _ Hok) as Hkey.
  split; [eapply step_table_ok; eassumption|].
  split; [eapply step_stamps; eassumption | eapply step_queue_ok; eassumption].
Qed.

Lemma steps_evolve (w w' : World) :
  table_ok w → rtc step w w' → table_ok w' ∧ table_evolves w w'.
Proof.
  intros Hok Hsteps. induction Hsteps as [|a b c Hstep _ IH].
  - split; [assumption | apply table_evolves_refl].
  - pose proof (step_table_ok _ _ Hok Hstep) as Hok'.
    destruct (IH Hok') as [Hokc Hev]. split; [assumption|].
    eapply table_evolves_trans; [|exact Hev].
    apply step_evolves; [apply table_ok_keyed|]; assumption.
Qed.

End Histories.

Section HistoryProperties.

Context `{Deployment}.

Lemma worker_loop_calls (n : nat) :
  ∀ w, keyed w → queue_ok w →
    crew_calls (worker_loop n w).2
    = (crew_calls w + min n (length (rq_jobs w)))%nat.
Proof.
  induction n as [|n IH]; intros w Hkey Hq; [cbn; lia|].
  destruct (rq_jobs w) as [|[[job_id query] file_path] rest] eqn:Hrest.
  - rewrite (worker_loop_empty _ _ Hrest). cbn. lia.
  - rewrite (worker_loop_cons _ _ _ _ _ _ Hrest).
    set (w0 := with_rq_jobs rest w).
    assert (keyed w0) as Hkey0 by exact Hkey.
    assert (queue_ok w0) as Hq0.
    { intros j q f Hin. apply Hq. rewrite Hrest. apply elem_of_cons. auto. }
    rewrite IH;
      [|apply process_job_keyed; assumption
       |apply process_job_queue_ok; assumption].
    destruct (process_job_counters w0 job_id query file_path) as (-> & _ & ->).
    destruct (Hq job_id query file_path) as (row & Hrow & _);
      [rewrite Hrest; apply elem_of_cons; auto|].
    change (analysis_table w0) with (analysis_table w). rewrite Hrow.
    cbn. lia.
Qed.

(** X6. Along any sequence of events from a reachable state, a stored row
    is never removed, its id, query, file path and creation time never
    change, and its status never moves backwards: the row is either exactly
    as it was or terminal with a result, and a terminal row stays
    terminal. *)
Theorem X6_rows_only_move_forward (w w' : World) :
  reachable w →
  rtc step w w' →
  ∀ job_id row, analysis_table w !! job_id = Some row →
    ∃ row', analysis_table w' !! job_id = Some row'
            ∧ db.id row' = db.id row
            ∧ db.query row' = db.query row
            ∧ db.file_path row' = db.file_path row
            ∧ db.created_at row' = db.created_at row
            ∧ (row' = row ∨ (terminal (db.status row') ∧ is_Some (db.result row')))
            ∧ (terminal (db.status row) → terminal (db.status row')).
Proof.
  intros Hreach Hsteps job_id row Hrow.
  destruct (steps_evolve w w' (reachable_table_ok _ Hreach) Hsteps) as [_ Hev].
  destruct (Hev _ _ Hrow) as (row' & Hrow' & Hevolved).
  exists row'. split; [assumption|].
  pose proof (evolved_terminal _ _ Hevolved) as Hterm.
  destruct Hevolved as (? & ? & ? & ? & ?). auto 10.
Qed.

(** X7. In every reachable state the timestamps of a stored row are in
    order and not in the future: [created_at] is at most [updated_at], which
    is at most the current reading of the clock. *)
Theorem X7_timestamps_in_order (w : World) :
  reachable w →
  ∀ job_id row, analysis_table w !! job_id = Some row →
    (db.created_at row ≤ db.updated_at row)%Z ∧ (db.updated_at row ≤ utcnow w)%Z.
Proof. intros Hreach. apply (reachable_invariants _ Hreach). Qed.

(** X8. In every reachable state each call waiting in the queue names a
    stored row and carries exactly that row's query and file path. *)
Theorem X8_queued_calls_name_stored_rows (w : World) :
  reachable w →
  ∀ job_id query file_path, (job_id, query, file_path) ∈ rq_jobs w →
    ∃ row, analysis_table w !! job_id = Some row
           ∧ db.id row = job_id
           ∧ db.query row = query
           ∧ db.file_path row = file_path.
Proof.
  intros Hreach job_id query file_path Hin.
  destruct (reachable_invariants _ Hreach) as (Hok & _ & Hq).
  destruct (Hq _ _ _ Hin) as (row & Hrow & ? & ?).
  exists row. split; [assumption|]. split; [apply (Hok _ _ Hrow) | auto].
Qed.

(** X9. From a reachable state the worker never skips a queued call for a
    missing row: running the loop over at most [n] calls returns normally,
    removes the [n] oldest calls from the queue (all of them if there are
    fewer), starts exactly one analysis run for each call removed, and
    leaves the clock reading alone. *)
Theorem X9_worker_runs_once_per_queued_call (n : nat) (w : World) :
  reachable w →
  (worker_loop n w).1 = Returned ()
  ∧ rq_jobs (worker_loop n w).2 = drop n (rq_jobs w)
  ∧ crew_calls (worker_loop n w).2
    = (crew_calls w + min n (length (rq_jobs w)))%nat
  ∧ utcnow (worker_loop n w).2 = utcnow w.
Proof.
  intros Hreach. destruct (reachable_invariants _ Hreach) as (Hok & _ & Hq).
  destruct (worker_loop_returns n w) as (Hret & Hrest & Hnow).
  split; [rewrite Hret; reflexivity|]. split; [assumption|].
  split; [|assumption].
  apply worker_loop_calls; [apply table_ok_keyed|]; assumption.
Qed.

(** X10. With the queue library and an idle worker, a submission that is
    accepted and then picked up by the worker ends as the run decides: a
    status query for its id then reports 'completed' with the text the crew
    returned, or 'failed' with "error: " and the text of the exception. *)
Theorem X10_queued_job_end_to_end (s : Submission) (w : World) :
  REDIS_AVAILABLE = true →
  save_upload s = Returned () →
  analysis_table w !! uuid_job s = None →
  rq_enqueue s = Returned () →
  rq_jobs w = [] →
  (job_status (uuid_job s)
     (worker_loop 1 (analyze_financial_document s w).2).2).1
  = Returned
      (match run_crew (crew_calls w)
               (strip (if decide (form_query s = "") then default_query
                       else form_query s))
               ("data/financial_document_" +:+ uuid_file s +:+ ".pdf") with
       | Returned text => mkStatusReply (uuid_job s) "completed" (Some text)
       | Raised e => mkStatusReply (uuid_job s) "failed" (Some ("error: " +:+ str e))
       end).
Proof.
  intros Hredis Hsave Hfresh Henq Hidle.
  rewrite (analyze_enqueued _ _ Hredis Hsave Hfresh Henq), Hidle. cbn [snd app].
  erewrite worker_loop_cons by reflexivity.
  erewrite process_job_present
    by (cbn [analysis_table with_rq_jobs]; apply lookup_insert_eq).
  cbn [worker_loop]. unfold mret, M_ret, ret. cbn [snd crew_calls with_rq_jobs].
  fold (submitted_query s) (saved_path s).
  rewrite (job_status_present _ _
             (db.set_updated_at (utcnow w)
                (written_back
                   (run_crew (crew_calls w) (strip (submitted_query s)) (saved_path s))
                   (pending_row s w)))).
  - destruct (run_crew _ _ _); reflexivity.
  - cbn [analysis_table]. unfold flushed.
    rewrite decide_False by (destruct (run_crew _ _ _); discriminate).
    cbn [analysis_table with_rq_jobs utcnow]. rewrite written_back_id.
    apply lookup_insert_eq.
Qed.

(** X11. A second delivery whose run ends exactly as the stored row says
    (the same text for a 'completed' row, the same exception text for a
    'failed' row) writes nothing: the table, [updated_at] included, is left
    as it was, although one more analysis run was started. *)
Theorem X11_same_outcome_writes_nothing (w : World) (job_id query file_path : string)
    (row : db.Analysis) :
  analysis_table w !! job_id = Some row →
  match run_crew (crew_calls w) query file_path with
  | Returned text => db.status row = "completed" ∧ db.result row = Some text
  | Raised e => db.status row = "failed" ∧ db.result row = Some ("error: " +:+ str e)
  end →
  analysis_table (process_job job_id query file_path w).2 = analysis_table w
  ∧ crew_calls (process_job job_id query file_path w).2 = S (crew_calls w).
Proof.
  intros Hrow Hsame. rewrite (process_job_present _ _ _ _ _ Hrow).
  cbn [snd analysis_table crew_calls]. split; [|reflexivity].
  unfold flushed. rewrite decide_True; [reflexivity|].
  destruct (run_crew _ _ _), row; cbn in *; destruct Hsame as [-> ->]; reflexivity.
Qed.

End HistoryProperties.

(** ** Properties of the string helpers *)

Lemma lstrip_starts_tight (s : string) : starts_tight (lstrip s) = true.
Proof.
  induction s as [|c s IH]; [reflexivity|]. cbn.
  destruct (isspace c) eqn:Hc; [assumption|]. cbn. rewrite Hc. reflexivity.
Qed.

Lemma lstrip_tight (s : string) : starts_tight s = true → lstrip s = s.
Proof.
  destruct s as [|c s]; [reflexivity|]. cbn.
  intros Hc%negb_true_iff. rewrite Hc. reflexivity.
Qed.

Lemma rstrip_ends_tight (s : string) : ends_tight (rstrip s) = true.
Proof.
  induction s as [|c s IH]; [reflexivity|]. cbn [rstrip].
  destruct (rstrip s) as [|c' t].
  - destruct (isspace c) eqn:Hc; [reflexivity|]. cbn. rewrite Hc. reflexivity.
  - exact IH.
Qed.

Lemma rstrip_tight (s : string) : ends_tight s = true → rstrip s = s.
Proof.
  induction s as [|c s IH]; [reflexivity|]. destruct s as [|c' s'].
  - cbn. intros Hc%negb_true_iff. rewrite Hc. reflexivity.
  - intros Hs. change (ends_tight (String c' s') = true) in Hs.
    cbn [rstrip]. cbn [rstrip] in IH. rewrite (IH Hs). reflexivity.
Qed.

Lemma rstrip_starts_tight (s : string) :
  starts_tight s = true → starts_tight (rstrip s) = true.
Proof.
  destruct s as [|c s]; [reflexivity|]. cbn [rstrip starts_tight].
  intros Hc. destruct (rstrip s); [|exact Hc].
  apply negb_true_iff in Hc. rewrite Hc. cbn. rewrite Hc. reflexivity.
Qed.

Lemma rstrip_empty_blank (s : string) : rstrip s = "" → blank s = true.
Proof.
  induction s as [|c s IH]; [reflexivity|]. cbn [rstrip blank].
  destruct (rstrip s); [|discriminate].
  destruct (isspace c); [intros _; apply IH; reflexivity | discriminate].
Qed.

Lemma lstrip_blank_inv (s : string) : blank (lstrip s) = true → blank s = true.
Proof.
  induction s as [|c s IH]; [reflexivity|]. cbn [lstrip].
  destruct (isspace c) eqn:Hc; [|auto]. cbn. rewrite Hc. exact IH.
Qed.

Lemma strip_fixed (s : string) :
  starts_tight s = true → ends_tight s = true → strip s = s.
Proof.
  intros Hstart Hend. unfold strip. rewrite lstrip_tight by assumption.
  apply rstrip_tight. assumption.
Qed.

(** X12. [strip] removes exactly the surrounding whitespace: its result
    neither starts nor ends with a whitespace character, stripping again
    changes nothing, and the result is empty exactly when the string
    consists of whitespace only. *)
Theorem X12_strip_is_tight_and_idempotent (s : string) :
  starts_tight (strip s) = true
  ∧ ends_tight (strip s) = true
  ∧ strip (strip s) = strip s
  ∧ (strip s = "" ↔ blank s = true).
Proof.
  assert (starts_tight (strip s) = true) as Hstart
    by (apply rstrip_starts_tight, lstrip_starts_tight).
  assert (ends_tight (strip s) = true) as Hend by apply rstrip_ends_tight.
  split; [assumption|]. split; [assumption|].
  split; [apply strip_fixed; assumption|].
  split; [|apply strip_blank].
  intros Hempty. apply lstrip_blank_inv, rstrip_empty_blank. exact Hempty.
Qed.

Lemma one_line_rev_app (acc p : string) :
  one_line (String.rev_app acc p) = one_line acc && one_line p.
Proof.
  revert p. induction acc as [|c acc IH]; intros p; [reflexivity|].
  cbn. rewrite IH. cbn. destruct (is_linebreak c), (one_line acc); reflexivity.
Qed.

Lemma splitlines_from_one_line (n : nat) :
  ∀ s acc, (String.length s ≤ n)%nat → one_line acc = true →
    Forall (λ line, one_line line = true) (splitlines_from acc s).
Proof.
  induction n as [|n IH]; intros s acc Hlen Hacc.
  - destruct s; [|cbn in Hlen; lia]. cbn. destruct acc; [constructor|].
    repeat constructor. unfold String.rev. rewrite one_line_rev_app, Hacc. reflexivity.
  - assert (one_line (String.rev acc) = true) as Hrev
      by (unfold String.rev; rewrite one_line_rev_app, Hacc; reflexivity).
    destruct s as [|c s]; cbn [splitlines_from].
    + destruct acc; repeat constructor. assumption.
    + cbn in Hlen. destruct (is_linebreak c) eqn:Hc.
      * destruct s as [|c' s'']; [repeat constructor; assumption|].
        cbn in Hlen. destruct (_ && _); constructor; try assumption;
          apply IH; cbn; try lia; reflexivity.
      * apply IH; [lia|]. cbn. rewrite Hc, Hacc. reflexivity.
Qed.

Lemma one_line_lstrip (s : string) : one_line s = true → one_line (lstrip s) = true.
Proof.
  induction s as [|c s IH]; [reflexivity|]. cbn [lstrip].
  destruct (isspace c); [|auto]. cbn. intros [_ Hs]%andb_true_iff. auto.
Qed.

Lemma one_line_rstrip (s : string) : one_line s = true → one_line (rstrip s) = true.
Proof.
  induction s as [|c s IH]; [reflexivity|]. cbn [rstrip one_line].
  intros [Hc Hs]%andb_true_iff. specialize (IH Hs).
  destruct (rstrip s) as [|c' t].
  - destruct (isspace c); [reflexivity|]. cbn. rewrite Hc. reflexivity.
  - cbn [one_line]. rewrite Hc. exact IH.
Qed.

Lemma splitlines_from_line (p rest : string) :
  ∀ acc, one_line p = true →
    splitlines_from acc (p +:+ newline +:+ rest)
    = String.rev_app acc p :: splitlines_from "" rest.
Proof.
  induction p as [|c p IH]; intros acc Hp.
  - cbn. destruct rest; reflexivity.
  - cbn in Hp. apply andb_true_iff in Hp as [Hc Hp].
    apply negb_true_iff in Hc.
    change (String c p +:+ newline +:+ rest) with (String c (p +:+ newline +:+ rest)).
    cbn [splitlines_from]. rewrite Hc. rewrite IH by assumption. reflexivity.
Qed.

Lemma splitlines_from_last (p : string) :
  ∀ acc, one_line p = true → String.rev_app acc p ≠ "" →
    splitlines_from acc p = [String.rev_app acc p].
Proof.
  induction p as [|c p IH]; intros acc Hp Hne.
  - destruct acc; [exfalso; apply Hne; reflexivity | reflexivity].
  - cbn in Hp. apply andb_true_iff in Hp as [Hc Hp].
    apply negb_true_iff in Hc. cbn [splitlines_from]. rewrite Hc.
    apply IH; assumption.
Qed.

Lemma splitlines_join (lines : list string) :
  Forall (λ line, one_line line = true ∧ line ≠ "") lines →
  splitlines (join newline lines) = lines.
Proof.
  induction 1 as [|p ps [Hp Hne] Hps IH]; [reflexivity|].
  destruct ps as [|q qs].
  - cbn [join]. apply (splitlines_from_last p ""); assumption.
  - change (join newline (p :: q :: qs))
      with (p +:+ newline +:+ join newline (q :: qs)).
    unfold splitlines. rewrite splitlines_from_line by assumption.
    cbn [String.rev_app]. f_equal. exact IH.
Qed.

Lemma normalized_lines (text : string) :
  Forall (λ line, (one_line line = true ∧ line ≠ "") ∧ strip line = line)
    (map strip (filter (λ line, strip line ≠ "") (splitlines text))).
Proof.
  pose proof (splitlines_from_one_line (String.length text) text "" (le_n _) eq_refl)
    as Hlines.
  fold (splitlines text) in Hlines.
  induction Hlines as [|line lines Hline _ IH]; [constructor|].
  rewrite filter_cons. case_decide as Hkeep; [|exact IH].
  cbn [map]. constructor; [|exact IH].
  split; [split; [|assumption]|].
  - apply one_line_rstrip, one_line_lstrip. assumption.
  - apply strip_fixed; [apply rstrip_starts_tight, lstrip_starts_tight
                       |apply rstrip_ends_tight].
Qed.

(** X13. The whitespace normalisation applied to every PDF page is
    idempotent, and its result splits back into its own lines: these are
    non-empty, carry no surrounding whitespace, and no blank line is left
    between them. *)
Theorem X13_normalize_whitespace_idempotent (text : string) :
  normalize_whitespace (normalize_whitespace text) = normalize_whitespace text
  ∧ Forall (λ line, line ≠ "" ∧ strip line = line)
      (splitlines (normalize_whitespace text)).
Proof.
  pose proof (normalized_lines text) as Hlines.
  set (lines := map strip (filter (λ line, strip line ≠ "") (splitlines text))) in *.
  change (normalize_whitespace text) with (join newline lines).
  assert (splitlines (join newline lines) = lines) as Hsplit.
  { apply splitlines_join. eapply Forall_impl; [exact Hlines|]. cbn. tauto. }
  split.
  - unfold normalize_whitespace. rewrite Hsplit. f_equal.
    clear Hsplit. induction Hlines as [|line rest [[_ Hne] Hfix] _ IH]; [reflexivity|].
    rewrite filter_cons, decide_True by congruence.
    cbn [map]. rewrite Hfix, IH. reflexivity.
  - rewrite Hsplit. eapply Forall_impl; [exact Hlines|]. cbn. tauto.
Qed.

(** ** Properties of the tools *)

Lemma split_from_bound (s : string) :
  ∀ acc, (2 * length (split_from acc s) ≤ String.length acc + String.length s + 1)%nat.
Proof.
  induction s as [|c s IH]; intros acc.
  - destruct acc; cbn; lia.
  - cbn [split_from String.length]. destruct (isspace c).
    + destruct acc as [|a acc]; [specialize (IH ""); cbn in *; lia|].
      specialize (IH ""). cbn in *. lia.
    + specialize (IH (String c acc)). cbn in *. lia.
Qed.

Lemma split_from_nil (s : string) :
  ∀ acc, split_from acc s = [] ↔ acc = "" ∧ blank s = true.
Proof.
  induction s as [|c s IH]; intros acc.
  - destruct acc; cbn; split; [auto | intros []; reflexivity | discriminate
                               | intros []; discriminate].
  - cbn [split_from blank]. destruct (isspace c).
    + destruct acc as [|a acc]; [apply IH|].
      split; [discriminate | intros []; discriminate].
    + rewrite IH. cbn. split; [intros []; discriminate | intros []; discriminate].
Qed.

(** X14. For a non-empty document the investment tool reports the number
    of whitespace-separated words and the number of characters; the word
    count is at most half the character count rounded up, and it is zero
    exactly when the document consists of whitespace only, which the tool
    still treats as content. *)
Theorem X14_investment_report_counts (financial_document_data : string) :
  financial_document_data ≠ "" →
  analyze_investment_tool financial_document_data
  = "Document size: " +:+ pretty (length (split financial_document_data))
    +:+ " words, " +:+ pretty (String.length financial_document_data)
    +:+ " characters. Detailed analysis not implemented."
  ∧ (2 * length (split financial_document_data)
     ≤ S (String.length financial_document_data))%nat
  ∧ (length (split financial_document_data) = 0%nat
     ↔ blank financial_document_data = true).
Proof.
  intros Hne. split; [unfold analyze_investment_tool; rewrite decide_False by assumption;
                      reflexivity|].
  split.
  - pose proof (split_from_bound financial_document_data "") as Hb. cbn in Hb.
    unfold split. lia.
  - unfold split. rewrite length_zero_iff_nil, split_from_nil. tauto.
Qed.

Section Pages.

Variable fs : string → file_state.
Variable pdf_pages : list Byte.byte → outcome (list (outcome (option string))).
Variable decode_utf8_ignore : list Byte.byte → outcome string.

Lemma read_pages_returned (texts : list (option string)) :
  ∀ full_report,
    read_pages (Returned <$> texts) full_report
    = Returned (full_report
                ++ map (λ t, normalize_whitespace (default "" t)) texts)%list.
Proof.
  induction texts as [|t texts IH]; intros full_report.
  - cbn. rewrite app_nil_r. reflexivity.
  - cbn [fmap list_fmap read_pages]. cbn [mbind outcome_bind].
    rewrite IH, <- app_assoc. destruct t; reflexivity.
Qed.

Lemma read_pages_raised (pages : list (outcome (option string))) (e : exn) :
  Raised e ∈ pages →
  ∀ full_report, ∃ e', read_pages pages full_report = Raised e'.
Proof.
  induction pages as [|page pages IH]; intros Hin full_report; [inversion Hin|].
  apply elem_of_cons in Hin as [<-|Hin]; [cbn; eauto|].
  destruct page as [t|e0]; [|cbn; eauto].
  cbn [read_pages mbind outcome_bind]. apply IH. assumption.
Qed.

(** X15. Text extraction from a PDF is all or nothing. When every page can
    be read, the result is the normalised text of the pages (an empty text
    for a page without one) joined by blank lines. When any single page
    raises, everything extracted from the other pages is discarded and the
    result is the raw bytes of the file decoded as text, or the empty string
    if the decoding raises. *)
Theorem X15_pdf_pages_all_or_nothing (path : string) (data : list Byte.byte)
    (pages : list (outcome (option string))) :
  fs path = Readable data →
  pdf_pages data = Returned pages →
  (∀ texts, pages = Returned <$> texts →
     read_data_tool fs true pdf_pages decode_utf8_ignore path
     = Returned (join (newline +:+ newline)
                   (map (λ t, normalize_whitespace (default "" t)) texts)))
  ∧ (∀ e, Raised e ∈ pages →
       read_data_tool fs true pdf_pages decode_utf8_ignore path
       = match decode_utf8_ignore data with
         | Returned text => Returned text
         | Raised _ => Returned ""
         end).
Proof.
  intros Hfs Hpages.
  unfold read_data_tool, os_path_exists, read_pdf, PdfReader, read_as_text, open_read.
  rewrite Hfs. cbn [negb mbind outcome_bind]. rewrite Hpages.
  cbn [mbind outcome_bind]. split.
  - intros texts ->. rewrite read_pages_returned. reflexivity.
  - intros e Hin. destruct (read_pages_raised pages e Hin []) as [e' ->]. reflexivity.
Qed.

Lemma join_blanks (n : nat) :
  String.length (join (newline +:+ newline) (replicate n "")) = (2 * (n - 1))%nat
  ∧ blank (join (newline +:+ newline) (replicate n "")) = true.
Proof.
  induction n as [|n [IHlen IHblank]]; [split; reflexivity|].
  destruct n as [|n]; [split; reflexivity|].
  change (join (newline +:+ newline) (replicate (S (S n)) ""))
    with (String "010" (String "010" (join (newline +:+ newline) (replicate (S n) "")))).
  cbn [String.length blank]. rewrite IHlen, IHblank. split; [lia | reflexivity].
Qed.

(** X16. A PDF whose pages all come out empty after normalisation (no text
    layer, or whitespace only) is not reported as empty: with [n] such pages
    the extracted document consists of [2 * (n - 1)] newline characters.
    From two pages on, both analysis tools take it for content: the
    investment tool reports 0 words, and the risk tool reports a completed
    check. *)
Theorem X16_textless_pdf_counts_as_content (path : string) (data : list Byte.byte)
    (texts : list (option string)) :
  fs path = Readable data →
  pdf_pages data = Returned (Returned <$> texts) →
  Forall (λ t, normalize_whitespace (default "" t) = "") texts →
  ∃ doc,
    read_data_tool fs true pdf_pages decode_utf8_ignore path = Returned doc
    ∧ String.length doc = (2 * (length texts - 1))%nat
    ∧ blank doc = true
    ∧ ((2 ≤ length texts)%nat →
       analyze_investment_tool doc
       = "Document size: 0 words, " +:+ pretty (2 * (length texts - 1))%nat
         +:+ " characters. Detailed analysis not implemented."
       ∧ create_risk_assessment_tool doc
         = "Basic risk check complete. Detailed risk models are not implemented in this debug build.").
Proof.
  intros Hfs Hpages Hempty.
  exists (join (newline +:+ newline) (replicate (length texts) "")).
  destruct (join_blanks (length texts)) as [Hlen Hblank].
  split; [|split; [assumption|split; [assumption|]]].
  - unfold read_data_tool, os_path_exists, read_pdf, PdfReader, read_as_text, open_read.
    rewrite Hfs. cbn [negb mbind outcome_bind]. rewrite Hpages.
    cbn [mbind outcome_bind]. rewrite read_pages_returned. cbn [app mret outcome_ret]. do 2 f_equal.
    clear Hfs Hpages Hlen Hblank. induction Hempty as [|t texts Ht _ IH]; [reflexivity|].
    cbn [map length replicate]. rewrite Ht, IH. reflexivity.
  - intros Hn.
    assert (join (newline +:+ newline) (replicate (length texts) "") ≠ "") as Hne.
    { intros Heq. rewrite Heq in Hlen. cbn in Hlen. lia. }
    unfold analyze_investment_tool, create_risk_assessment_tool.
    rewrite !decide_False by assumption. cbv zeta. rewrite Hlen.
    assert (split (join (newline +:+ newline) (replicate (length texts) "")) = [])
      as -> by (apply split_from_nil; auto).
    split; reflexivity.
Qed.

End Pages.

(** ** The further properties at concrete inputs *)

Lemma X1_witness :
  @analyze_financial_document queued_deployment doc1 fresh_world
  = (Returned (mkResponse "queued" "j-1" "summarize" "doc1.pdf" None),
     (@analyze_financial_document queued_deployment doc1 fresh_world).2)
  ∧ resp_job_id (mkResponse "queued" "j-1" "summarize" "doc1.pdf" None) = uuid_job doc1.
Proof.
  assert (@analyze_financial_document queued_deployment doc1 fresh_world
          = (Returned (mkResponse "queued" "j-1" "summarize" "doc1.pdf" None),
             (@analyze_financial_document queued_deployment doc1 fresh_world).2))
    as Hrun by (vm_compute; reflexivity).
  split; [exact Hrun|].
  exact (proj1 (@X1_reply_names_the_new_row queued_deployment doc1 fresh_world _ _ Hrun)).
Defined.

Lemma X2_witness :
  @REDIS_AVAILABLE inline_deployment = false
  ∧ @analyze_financial_document inline_deployment doc1 fresh_world
    = (Returned (mkResponse "completed" "j-1" "summarize" "doc1.pdf" (Some no_anomalies)),
       (@analyze_financial_document inline_deployment doc1 fresh_world).2)
  ∧ (job_status "j-1" (@analyze_financial_document inline_deployment doc1 fresh_world).2).1
    = Returned (mkStatusReply "j-1" "completed" (Some no_anomalies)).
Proof.
  assert (@analyze_financial_document inline_deployment doc1 fresh_world
          = (Returned (mkResponse "completed" "j-1" "summarize" "doc1.pdf"
                                  (Some no_anomalies)),
             (@analyze_financial_document inline_deployment doc1 fresh_world).2))
    as Hrun by (vm_compute; reflexivity).
  split; [reflexivity|]. split; [exact Hrun|].
  exact (@X2_inline_poll_agrees_with_reply inline_deployment doc1 fresh_world _ _
           eq_refl Hrun).
Defined.

Lemma X5_witness :
  form_query doc_blank ≠ ""
  ∧ blank (form_query doc_blank) = true
  ∧ @analyze_financial_document queued_deployment doc_blank fresh_world
    = (Returned (mkResponse "queued" "j-3" "   " "doc3.pdf" None),
       (@analyze_financial_document queued_deployment doc_blank fresh_world).2)
  ∧ (resp_query (mkResponse "queued" "j-3" "   " "doc3.pdf" None) = form_query doc_blank
     ∧ db.query
         <$> analysis_table
               (@analyze_financial_document queued_deployment doc_blank fresh_world).2
             !! "j-3"
       = Some "").
Proof.
  assert (form_query doc_blank ≠ "") as Hne by discriminate.
  assert (@analyze_financial_document queued_deployment doc_blank fresh_world
          = (Returned (mkResponse "queued" "j-3" "   " "doc3.pdf" None),
             (@analyze_financial_document queued_deployment doc_blank fresh_world).2))
    as Hrun by (vm_compute; reflexivity).
  split; [exact Hne|]. split; [reflexivity|]. split; [exact Hrun|].
  exact (@X5_blank_query_is_stored_empty queued_deployment doc_blank fresh_world _ _
           Hne eq_refl Hrun).
Defined.

Lemma redelivery_is_a_step : rtc (@step flaky_deployment) completed_world redelivered_world.
Proof.
  eapply rtc_l; [|apply rtc_refl].
  apply (@step_deliver flaky_deployment "j-1" "summarize"
           "data/financial_document_f-1.pdf" completed_world).
Qed.

Lemma X6_witness :
  @reachable flaky_deployment completed_world
  ∧ rtc (@step flaky_deployment) completed_world redelivered_world
  ∧ analysis_table completed_world !! "j-1" = Some completed_row
  ∧ ∃ row', analysis_table redelivered_world !! "j-1" = Some row'
            ∧ db.id row' = db.id completed_row
            ∧ db.query row' = db.query completed_row
            ∧ db.file_path row' = db.file_path completed_row
            ∧ db.created_at row' = db.created_at completed_row
            ∧ (row' = completed_row
               ∨ (terminal (db.status row') ∧ is_Some (db.result row')))
            ∧ (terminal (db.status completed_row) → terminal (db.status row')).
Proof.
  assert (analysis_table completed_world !! "j-1" = Some completed_row) as Hrow
    by (vm_compute; reflexivity).
  split; [exact completed_world_reachable|]. split; [exact redelivery_is_a_step|].
  split; [exact Hrow|].
  exact (@X6_rows_only_move_forward flaky_deployment completed_world redelivered_world
           completed_world_reachable redelivery_is_a_step "j-1" completed_row Hrow).
Defined.

Lemma X7_witness :
  @reachable flaky_deployment completed_world
  ∧ ∀ job_id row, analysis_table completed_world !! job_id = Some row →
      (db.created_at row ≤ db.updated_at row)%Z
      ∧ (db.updated_at row ≤ utcnow completed_world)%Z.
Proof.
  split; [exact completed_world_reachable|].
  exact (@X7_timestamps_in_order flaky_deployment completed_world
           completed_world_reachable).
Defined.

Lemma X8_witness :
  @reachable recovering_deployment two_queued_world
  ∧ ∀ job_id query file_path,
      (job_id, query, file_path) ∈ rq_jobs two_queued_world →
      ∃ row, analysis_table two_queued_world !! job_id = Some row
             ∧ db.id row = job_id
             ∧ db.query row = query
             ∧ db.file_path row = file_path.
Proof.
  split; [exact two_queued_world_reachable|].
  exact (@X8_queued_calls_name_stored_rows recovering_deployment two_queued_world
           two_queued_world_reachable).
Defined.

Lemma X9_witness :
  @reachable recovering_deployment two_queued_world
  ∧ (@worker_loop recovering_deployment 5 two_queued_world).1 = Returned ()
  ∧ rq_jobs (@worker_loop recovering_deployment 5 two_queued_world).2
    = drop 5 (rq_jobs two_queued_world)
  ∧ crew_calls (@worker_loop recovering_deployment 5 two_queued_world).2
    = (crew_calls two_queued_world + min 5 (length (rq_jobs two_queued_world)))%nat
  ∧ utcnow (@worker_loop recovering_deployment 5 two_queued_world).2
    = utcnow two_queued_world.
Proof.
  split; [exact two_queued_world_reachable|].
  exact (@X9_worker_runs_once_per_queued_call recovering_deployment 5 two_queued_world
           two_queued_world_reachable).
Defined.

Lemma X10_witness :
  @REDIS_AVAILABLE queued_deployment = true
  ∧ save_upload doc1 = Returned ()
  ∧ analysis_table fresh_world !! uuid_job doc1 = None
  ∧ rq_enqueue doc1 = Returned ()
  ∧ rq_jobs fresh_world = []
  ∧ (job_status (uuid_job doc1)
       (@worker_loop queued_deployment 1
          (@analyze_financial_document queued_deployment doc1 fresh_world).2).2).1
    = Returned (mkStatusReply "j-1" "completed" (Some no_anomalies)).
Proof.
  repeat (split; [reflexivity|]).
  exact (@X10_queued_job_end_to_end queued_deployment doc1 fresh_world
           eq_refl eq_refl eq_refl eq_refl eq_refl).
Defined.

Lemma X11_witness :
  analysis_table completed_world !! "j-1" = Some completed_row
  ∧ (db.status completed_row = "completed"
     ∧ db.result completed_row = Some no_anomalies)
  ∧ analysis_table
      (@process_job queued_deployment "j-1" "summarize"
         "data/financial_document_f-1.pdf" completed_world).2
    = analysis_table completed_world
  ∧ crew_calls
      (@process_job queued_deployment "j-1" "summarize"
         "data/financial_document_f-1.pdf" completed_world).2
    = S (crew_calls completed_world).
Proof.
  assert (analysis_table completed_world !! "j-1" = Some completed_row) as Hrow
    by (vm_compute; reflexivity).
  split; [exact Hrow|]. split; [split; reflexivity|].
  exact (@X11_same_outcome_writes_nothing queued_deployment completed_world "j-1"
           "summarize" "data/financial_document_f-1.pdf" completed_row Hrow
           (conj eq_refl eq_refl)).
Defined.

Lemma X14_witness :
  "  " ≠ ""
  ∧ analyze_investment_tool "  "
    = "Document size: 0 words, 2 characters. Detailed analysis not implemented."
  ∧ (2 * length (split "  ") ≤ S (String.length "  "))%nat
  ∧ (length (split "  ") = 0%nat ↔ blank "  " = true).
Proof.
  assert ("  " ≠ "") as Hne by discriminate.
  split; [exact Hne|].
  exact (X14_investment_report_counts "  " Hne).
Defined.

Lemma X15_witness :
  sample_fs "data/notes.txt" = Readable [Byte.x68; Byte.x69]
  ∧ damaged_pdf [Byte.x68; Byte.x69]
    = Returned [Returned (Some "Revenue 12"); Raised (Exception "broken page")]
  ∧ Raised (Exception "broken page")
    ∈ [Returned (Some "Revenue 12"); Raised (Exception "broken page")]
  ∧ read_data_tool sample_fs true damaged_pdf ascii_decode "data/notes.txt"
    = Returned "hi".
Proof.
  assert (Raised (Exception "broken page")
          ∈ [Returned (Some "Revenue 12"); Raised (Exception "broken page")]) as Hin
    by (constructor 2; constructor 1).
  split; [reflexivity|]. split; [reflexivity|]. split; [exact Hin|].
  exact (proj2 (X15_pdf_pages_all_or_nothing sample_fs damaged_pdf ascii_decode
                  "data/notes.txt" [Byte.x68; Byte.x69] _ eq_refl eq_refl)
           (Exception "broken page") Hin).
Defined.

Lemma X16_witness :
  sample_fs "data/notes.txt" = Readable [Byte.x68; Byte.x69]
  ∧ scanned_pdf [Byte.x68; Byte.x69] = Returned (Returned <$> [None; Some "  "; None])
  ∧ Forall (λ t, normalize_whitespace (default "" t) = "") [None; Some "  "; None]
  ∧ ∃ doc,
      read_data_tool sample_fs true scanned_pdf ascii_decode "data/notes.txt"
      = Returned doc
      ∧ String.length doc = 4%nat
      ∧ blank doc = true
      ∧ ((2 ≤ 3)%nat →
         analyze_investment_tool doc
         = "Document size: 0 words, 4 characters. Detailed analysis not implemented."
         ∧ create_risk_assessment_tool doc
           = "Basic risk check complete. Detailed risk models are not implemented in this debug build.").
Proof.
  assert (Forall (λ t, normalize_whitespace (default "" t) = "") [None; Some "  "; None])
    as Hempty by (repeat constructor).
  split; [reflexivity|]. split; [reflexivity|]. split; [exact Hempty|].
  exact (X16_textless_pdf_counts_as_content sample_fs scanned_pdf ascii_decode
           "data/notes.txt" [Byte.x68; Byte.x69] [None; Some "  "; None]
           eq_refl eq_refl Hempty).
Defined.

(** X17. In every reachable state a status query that answers reports the
    id it was asked for and one of the three statuses 'pending',
    'completed' and 'failed', never 'queued'; the reported result is absent
    exactly when the status is 'pending'. *)
Theorem X17_poll_never_reports_queued `{Deployment} (w : World) (job_id : string)
    (reply : StatusReply) :
  reachable w →
  (job_status job_id w).1 = Returned reply →
  reply_job_id reply = job_id
  ∧ (reply_status reply = "pending" ∨ reply_status reply = "completed"
     ∨ reply_status reply = "failed")
  ∧ reply_status reply ≠ "queued"
  ∧ (reply_status reply = "pending" ↔ reply_result reply = None).
Proof.
  intros Hreach. destruct (analysis_table w !! job_id) as [row|] eqn:Hrow;
    [|rewrite (job_status_absent _ _ Hrow); discriminate].
  rewrite (job_status_present _ _ _ Hrow). intros [= <-].
  cbn [reply_job_id reply_status reply_result].
  destruct (reachable_table_ok _ Hreach _ _ Hrow) as (Hid & Hshape).
  split; [assumption|].
  destruct Hshape as [[-> ->]|[[-> [text ->]]|[-> [text ->]]]];
    (split; [auto|]); (split; [discriminate|]); split; intros; congruence.
Qed.

Lemma X17_witness :
  @reachable flaky_deployment completed_world
  ∧ (job_status "j-1" completed_world).1
    = Returned (mkStatusReply "j-1" "completed" (Some no_anomalies))
  ∧ reply_status (mkStatusReply "j-1" "completed" (Some no_anomalies)) ≠ "queued".
Proof.
  assert ((job_status "j-1" completed_world).1
          = Returned (mkStatusReply "j-1" "completed" (Some no_anomalies))) as Hpoll
    by (vm_compute; reflexivity).
  split; [exact completed_world_reachable|]. split; [exact Hpoll|].
  exact (proj1 (proj2 (proj2 (@X17_poll_never_reports_queued flaky_deployment
                                completed_world "j-1" _ completed_world_reachable
                                Hpoll)))).
Defined.

(** ** Every table a commit produces *)

Section EveryCommit.

Import Detailed.

Context `{Environment}.

Lemma keeps_ret {A} (P : State → Prop) (a : A) : keeps P (mret a : M A).
Proof. intros st Hst. exact Hst. Qed.

Lemma keeps_raise {A} (P : State → Prop) (r : raised) : keeps P (raise r : M A).
Proof. intros st Hst. exact Hst. Qed.

Lemma keeps_lift {A} (P : State → Prop) (o : outcome A) : keeps P (lift o).
Proof. intros st Hst. exact Hst. Qed.

Lemma keeps_bind {A B} (P : State → Prop) (m : M A) (k : A → M B) :
  keeps P m → (∀ a, keeps P (k a)) → keeps P (m ≫= k).
Proof.
  intros Hm Hk st Hst. specialize (Hm st Hst).
  unfold mbind, M_bind, bind. destruct (m st) as [[a|r] st']; [|exact Hm].
  apply Hk. exact Hm.
Qed.

Lemma keeps_try_except {A} (P : State → Prop) (m : M A) (h : exn → M A) :
  keeps P m → (∀ e, keeps P (h e)) → keeps P (try_except m h).
Proof.
  intros Hm Hh st Hst. specialize (Hm st Hst).
  unfold try_except. destruct (m st) as [[a|[e|c t]] st']; try exact Hm.
  apply Hh. exact Hm.
Qed.

Lemma keeps_try_finally {A} (P : State → Prop) (m : M A) (f : M unit) :
  keeps P m → keeps P f → keeps P (try_finally m f).
Proof.
  intros Hm Hf st Hst. specialize (Hm st Hst).
  unfold try_finally. destruct (m st) as [r st']. specialize (Hf st' Hm).
  destruct (f st') as [[[]|r'] st'']; exact Hf.
Qed.

Lemma written_together_refl (t : gmap string db.Analysis) : written_together t t.
Proof. intros job_id row Hrow. exists row. auto. Qed.

Lemma consistent_on_world (f : World → World) (st : State) :
  analysis_table (f (world st)) = analysis_table (world st) →
  orm_object (f (world st)) = orm_object (world st) →
  consistent st → consistent (on_world f st).
Proof.
  intros Ht Ho (Hhead & Hrows & Hchain & Hkey & Hobj).
  unfold consistent, object_ok, keyed. cbn [world history on_world].
  rewrite Ht, Ho. auto.
Qed.

Lemma consistent_close (o : option (db.Analysis * db.Analysis)) (st : State) :
  (∀ loaded record, o = Some (loaded, record) →
     analysis_table (world st) !! db.id loaded = Some loaded
     ∧ db.id record = db.id loaded
     ∧ (record = loaded ∨ (terminal (db.status record) ∧ is_Some (db.result record)))) →
  consistent st → consistent (on_world (with_orm_object o) st).
Proof.
  intros Ho (Hhead & Hrows & Hchain & Hkey & _).
  unfold consistent, object_ok, keyed. cbn. auto.
Qed.

Lemma keeps_session_close : keeps consistent session_close.
Proof. intros st Hst. apply consistent_close; [discriminate | assumption]. Qed.

Lemma keeps_session_get (job_id : string) : keeps consistent (session_get job_id).
Proof.
  intros st Hst. unfold session_get.
  destruct (get_fault _); [exact Hst|].
  destruct (analysis_table (world st) !! job_id) as [row|] eqn:Hrow; cbn [snd];
    apply consistent_close; try assumption; [|discriminate].
  intros loaded record [= <- <-].
  destruct Hst as (_ & _ & _ & Hkey & _). rewrite (Hkey _ _ Hrow). auto.
Qed.

Lemma keeps_call_run_crew (query file_path : string) :
  keeps consistent (call_run_crew query file_path).
Proof. intros st Hst. apply consistent_on_world; [reflexivity..|assumption]. Qed.

Lemma keeps_queue_enqueue (reply : outcome unit) (job : string * string * string) :
  keeps consistent (queue_enqueue reply job).
Proof.
  intros st Hst. unfold queue_enqueue. destruct reply; [|exact Hst].
  apply consistent_on_world; [reflexivity..|assumption].
Qed.

Lemma keeps_dequeue : keeps consistent dequeue.
Proof.
  intros st Hst. unfold dequeue. destruct (rq_jobs (world st)); [exact Hst|].
  apply consistent_on_world; [reflexivity..|assumption].
Qed.

Lemma consistent_committed (st : State) (row : db.Analysis) :
  consistent st →
  (waiting (db.status row) ∧ db.result row = None)
  ∨ (terminal (db.status row) ∧ is_Some (db.result row)) →
  match analysis_table (world st) !! db.id row with
  | None => True
  | Some old =>
      (db.status row = db.status old ∧ db.result row = db.result old)
      ∨ (terminal (db.status row) ∧ is_Some (db.result row))
  end →
  consistent
    (on_world (with_orm_object (Some (row, row)))
       (committed (<[db.id row := row]> (analysis_table (world st))) st)).
Proof.
  intros (Hhead & Hrows & Hchain & Hkey & _) Hshape Hold.
  assert (rows_ok (analysis_table (world st))) as Hcur.
  { destruct (history st) as [|t ts]; [discriminate|].
    injection Hhead as <-. apply (Forall_inv Hrows). }
  unfold consistent. cbn [world history on_world committed with_table with_orm_object
                          analysis_table orm_object].
  split; [reflexivity|]. split; [|split; [|split]].
  - constructor; [|assumption]. unfold rows_ok. intros job_id r.
    rewrite lookup_insert.
    case_decide; [intros [= <-]; assumption | apply Hcur].
  - destruct (history st) as [|t ts]; [discriminate|]. injection Hhead as ->.
    split; [|assumption]. unfold written_together. intros job_id r Hr.
    rewrite lookup_insert.
    case_decide as Hid; [|exists r; auto].
    subst job_id. rewrite Hr in Hold. exists row. auto.
  - unfold keyed. cbn [world on_world committed with_orm_object with_table
                       analysis_table].
    intros job_id r. rewrite lookup_insert.
    case_decide; [intros [= <-]; congruence | apply Hkey].
  - unfold object_ok. cbn [world on_world committed with_orm_object with_table
                           orm_object analysis_table].
    intros loaded record [= <- <-]. rewrite lookup_insert_eq. auto.
Qed.

Lemma keeps_session_add (new_id query file_path : string) :
  keeps consistent (session_add new_id query file_path "pending").
Proof.
  intros st Hst. unfold session_add.
  destruct (commit_fault _); [exact Hst|].
  destruct (analysis_table (world st) !! new_id) as [old|] eqn:Hold; [exact Hst|].
  cbn [snd].
  apply (consistent_committed st
           (db.mkAnalysis new_id query file_path None "pending"
                          (utcnow (world st)) (utcnow (world st)))).
  - assumption.
  - left. split; [left|]; reflexivity.
  - cbn [db.id]. rewrite Hold. exact I.
Qed.

Lemma keeps_session_commit : keeps consistent session_commit.
Proof.
  intros st Hst. unfold session_commit.
  destruct (commit_fault _); [exact Hst|].
  destruct (orm_object (world st)) as [[loaded record]|] eqn:Hobj; [|exact Hst].
  case_decide as Hsame; [exact Hst|]. cbn [snd].
  pose proof Hst as (Hhead & Hrows & Hchain & Hkey & Hok).
  destruct (Hok _ _ Hobj) as (Hloaded & Hid & [->|Hterm]); [congruence|].
  apply (consistent_committed st (db.set_updated_at (utcnow (world st)) record)).
  - exact Hst.
  - right. exact Hterm.
  - cbn [db.id db.set_updated_at]. rewrite Hid, Hloaded. right. exact Hterm.
Qed.

Lemma setattrs_object (v status : string) (st : State)
    (loaded record : db.Analysis) :
  terminal status →
  consistent st →
  orm_object (world st) = Some (loaded, record) →
  consistent
    (on_world
       (with_orm_object
          (Some (loaded, db.set_status status (db.set_result (Some v) record)))) st).
Proof.
  intros Hterm Hst Hobj. apply consistent_close; [|assumption].
  intros l r [= <- <-].
  destruct Hst as (_ & _ & _ & _ & Hok).
  destruct (Hok _ _ Hobj) as (Hloaded & Hid & _).
  split; [assumption|]. split; [exact Hid|]. right. cbn. eauto.
Qed.

Lemma keeps_setattrs (v status : string) :
  terminal status →
  keeps consistent (setattr_result v;; setattr_status status).
Proof.
  intros Hterm st Hst. unfold mbind, M_bind, bind, setattr_result, setattr_status.
  destruct (orm_object (world st)) as [[loaded record]|] eqn:Hobj; [|exact Hst].
  cbn. apply (setattrs_object v status st loaded record); assumption.
Qed.

Lemma keeps_setattrs_then {A} (v status : string) (k : M A) :
  terminal status →
  keeps consistent k →
  keeps consistent (setattr_result v;; setattr_status status;; k).
Proof.
  intros Hterm Hk st Hst. unfold mbind, M_bind, bind, setattr_result, setattr_status.
  destruct (orm_object (world st)) as [[loaded record]|] eqn:Hobj; [|exact Hst].
  cbn. apply Hk. apply (setattrs_object v status st loaded record); assumption.
Qed.

Lemma keeps_process_job (job_id query file_path : string) :
  keeps consistent (process_job job_id query file_path).
Proof.
  unfold process_job. apply keeps_bind; [apply keeps_session_get|].
  intros [row|].
  - apply keeps_try_finally.
    + apply keeps_try_except.
      * apply keeps_bind; [apply keeps_call_run_crew|]. intros result.
        apply keeps_setattrs. left. reflexivity.
      * intros e. apply keeps_setattrs. right. reflexivity.
    + apply keeps_bind; [apply keeps_session_commit|]. intros _.
      apply keeps_session_close.
  - apply keeps_bind; [apply keeps_session_close|]. intros _. apply keeps_ret.
Qed.

Lemma keeps_job_status (job_id : string) : keeps consistent (job_status job_id).
Proof.
  unfold job_status. apply keeps_bind; [apply keeps_session_get|]. intros record.
  apply keeps_bind; [apply keeps_session_close|]. intros _.
  destruct record; [apply keeps_ret | apply keeps_raise].
Qed.

Lemma keeps_analyze (s : Submission) :
  keeps consistent (analyze_financial_document s).
Proof.
  unfold analyze_financial_document. cbv zeta.
  apply keeps_try_except; [|intros e; apply keeps_raise].
  apply keeps_bind; [apply keeps_lift|]. intros _.
  apply keeps_bind; [apply keeps_session_add|]. intros job_id.
  apply keeps_bind; [apply keeps_session_close|]. intros _.
  destruct REDIS_AVAILABLE.
  - apply keeps_bind; [apply keeps_queue_enqueue|]. intros _. apply keeps_ret.
  - apply keeps_try_except.
    + apply keeps_bind; [apply keeps_call_run_crew|]. intros result.
      apply keeps_bind; [apply keeps_session_get|]. intros _.
      apply keeps_setattrs_then; [left; reflexivity|].
      apply keeps_bind; [apply keeps_session_commit|]. intros _.
      apply keeps_bind; [apply keeps_session_close|]. intros _. apply keeps_ret.
    + intros e.
      apply keeps_bind; [apply keeps_session_get|]. intros _.
      apply keeps_setattrs_then; [right; reflexivity|].
      apply keeps_bind; [apply keeps_session_commit|]. intros _.
      apply keeps_bind; [apply keeps_session_close|]. intros _. apply keeps_raise.
Qed.

Lemma keeps_worker_loop (n : nat) : keeps consistent (worker_loop n).
Proof.
  induction n as [|n IH]; [apply keeps_ret|]. cbn [worker_loop].
  apply keeps_bind; [apply keeps_dequeue|]. intros [[[j q] f]|].
  - apply keeps_bind; [apply keeps_process_job|]. intros _. exact IH.
  - apply keeps_ret.
Qed.

Lemma step_consistent (st st' : State) : consistent st → step st st' → consistent st'.
Proof.
  intros Hst Hstep. destruct Hstep.
  - apply keeps_analyze. assumption.
  - apply keeps_job_status. assumption.
  - apply keeps_worker_loop. assumption.
  - apply keeps_process_job. assumption.
  - apply consistent_on_world; [reflexivity..|assumption].
Qed.

Lemma reachable_consistent (st : State) : reachable st → consistent st.
Proof.
  intros (st0 & (Hempty & _ & Hobj & Hhist) & Hsteps).
  assert (consistent st0) as Hst0.
  { unfold consistent, object_ok, keyed. rewrite Hhist, Hempty, Hobj.
    split; [reflexivity|]. split; [|split; [exact I|split]].
    - apply Forall_cons. split; [|constructor].
      intros job_id row. rewrite lookup_empty. discriminate.
    - intros job_id row. rewrite lookup_empty. discriminate.
    - discriminate. }
  clear Hempty Hobj Hhist. induction Hsteps as [|a b c Hstep _ IH]; [assumption|].
  apply IH. eapply step_consistent; eassumption.
Qed.

End EveryCommit.

(** ** The detailed embedding against the embedding above *)

Ltac run_detailed :=
  cbv [mbind Detailed.M_bind Detailed.bind mret Detailed.M_ret Detailed.ret
       Detailed.raise Detailed.lift Detailed.try_except Detailed.try_finally
       Detailed.session_get Detailed.session_add Detailed.session_commit
       Detailed.session_close Detailed.setattr_result Detailed.setattr_status
       Detailed.call_run_crew Detailed.queue_enqueue Detailed.dequeue
       Detailed.of_outcome];
  cbn [Detailed.world Detailed.history Detailed.on_world Detailed.committed
       analysis_table rq_jobs crew_calls utcnow orm_object
       with_table with_rq_jobs with_crew_calls with_utcnow with_orm_object
       fst snd].

Section Refinement.

Context `{Detailed.Environment}.

#[local] Existing Instance Detailed.base.

Lemma detailed_process_job_get_fault (st : Detailed.State) (job_id query file_path : string)
    (r : Detailed.raised) :
  Detailed.get_fault (utcnow (Detailed.world st)) = Some r →
  Detailed.process_job job_id query file_path st = (Detailed.Threw r, st).
Proof.
  intros Hget. unfold Detailed.process_job. run_detailed. rewrite Hget. reflexivity.
Qed.

Lemma detailed_process_job_refines (st : Detailed.State) (job_id query file_path : string) :
  Detailed.get_fault (utcnow (Detailed.world st)) = None →
  Detailed.commit_fault (utcnow (Detailed.world st)) = None →
  Detailed.run_exits (crew_calls (Detailed.world st)) query file_path = None →
  (Detailed.process_job job_id query file_path st).1 = Detailed.Done ()
  ∧ Detailed.world (Detailed.process_job job_id query file_path st).2
    = (process_job job_id query file_path (Detailed.world st)).2.
Proof.
  intros Hget Hcommit Hexit.
  destruct (analysis_table (Detailed.world st) !! job_id) as [row|] eqn:Hrow.
  - rewrite (process_job_present _ _ _ _ _ Hrow).
    unfold Detailed.process_job. run_detailed. rewrite Hget, Hrow. run_detailed.
    rewrite Hexit. unfold flushed, written_back.
    destruct (run_crew (crew_calls (Detailed.world st)) query file_path) as [text|e];
      run_detailed; rewrite Hcommit; case_decide; split; reflexivity.
  - rewrite (process_job_absent _ _ _ _ Hrow).
    unfold Detailed.process_job. run_detailed. rewrite Hget, Hrow. split; reflexivity.
Qed.

Lemma detailed_process_job_exits (st : Detailed.State) (job_id query file_path : string)
    (row : db.Analysis) (class_name text : string) :
  Detailed.get_fault (utcnow (Detailed.world st)) = None →
  Detailed.commit_fault (utcnow (Detailed.world st)) = None →
  analysis_table (Detailed.world st) !! job_id = Some row →
  Detailed.run_exits (crew_calls (Detailed.world st)) query file_path = Some (class_name, text) →
  (Detailed.process_job job_id query file_path st).1 = Detailed.Threw (Detailed.BaseOnly class_name text)
  ∧ analysis_table (Detailed.world (Detailed.process_job job_id query file_path st).2)
    = analysis_table (Detailed.world st)
  ∧ Detailed.history (Detailed.process_job job_id query file_path st).2 = Detailed.history st.
Proof.
  intros Hget Hcommit Hrow Hexit.
  unfold Detailed.process_job. run_detailed. rewrite Hget, Hrow. run_detailed.
  rewrite Hexit. run_detailed. rewrite Hcommit.
  rewrite decide_True by reflexivity. repeat split.
Qed.

Lemma detailed_process_job_commit_fault (st : Detailed.State)
    (job_id query file_path : string) (row : db.Analysis) (r : Detailed.raised) :
  Detailed.get_fault (utcnow (Detailed.world st)) = None →
  Detailed.commit_fault (utcnow (Detailed.world st)) = Some r →
  analysis_table (Detailed.world st) !! job_id = Some row →
  (Detailed.process_job job_id query file_path st).1 = Detailed.Threw r
  ∧ analysis_table (Detailed.world (Detailed.process_job job_id query file_path st).2)
    = analysis_table (Detailed.world st)
  ∧ Detailed.history (Detailed.process_job job_id query file_path st).2 = Detailed.history st.
Proof.
  intros Hget Hcommit Hrow.
  unfold Detailed.process_job. run_detailed. rewrite Hget, Hrow. run_detailed.
  destruct (Detailed.run_exits _ _ _) as [[class_name text]|];
    [run_detailed; rewrite Hcommit; repeat split|].
  destruct (run_crew (crew_calls (Detailed.world st)) query file_path) as [text|e];
    run_detailed; rewrite Hcommit; repeat split.
Qed.

Lemma detailed_analyze_refines (s : Submission) (st : Detailed.State) :
  Detailed.get_fault (utcnow (Detailed.world st)) = None →
  Detailed.commit_fault (utcnow (Detailed.world st)) = None →
  Detailed.run_exits (crew_calls (Detailed.world st)) (strip (submitted_query s)) (saved_path s) = None →
  (Detailed.analyze_financial_document s st).1
  = Detailed.of_outcome (analyze_financial_document s (Detailed.world st)).1
  ∧ Detailed.world (Detailed.analyze_financial_document s st).2
    = (analyze_financial_document s (Detailed.world st)).2.
Proof.
  intros Hget Hcommit Hexit.
  destruct (save_upload s) as [[]|e] eqn:Hsave.
  2:{ rewrite (analyze_save_raised _ _ _ Hsave).
      unfold Detailed.analyze_financial_document. run_detailed. rewrite Hsave.
      split; reflexivity. }
  destruct (analysis_table (Detailed.world st) !! uuid_job s) as [old|] eqn:Hfresh.
  { rewrite (analyze_id_taken _ _ _ Hsave Hfresh).
    unfold Detailed.analyze_financial_document. run_detailed.
    rewrite Hsave, Hcommit, Hfresh. split; reflexivity. }
  destruct REDIS_AVAILABLE eqn:Hredis.
  - destruct (rq_enqueue s) as [[]|e] eqn:Henq.
    + rewrite (analyze_enqueued _ _ Hredis Hsave Hfresh Henq).
      unfold Detailed.analyze_financial_document. run_detailed.
      rewrite Hsave, Hcommit, Hfresh, Hredis. run_detailed. rewrite Henq.
      split; reflexivity.
    + rewrite (analyze_enqueue_raised _ _ _ Hredis Hsave Hfresh Henq).
      unfold Detailed.analyze_financial_document. run_detailed.
      rewrite Hsave, Hcommit, Hfresh, Hredis. run_detailed. rewrite Henq.
      split; reflexivity.
  - rewrite (analyze_inline _ _ Hredis Hsave Hfresh).
    unfold Detailed.analyze_financial_document. run_detailed.
    rewrite Hsave, Hcommit, Hfresh, Hredis. run_detailed.
    fold (submitted_query s) (saved_path s) (pending_row s (Detailed.world st)).
    rewrite Hexit.
    destruct (run_crew (crew_calls (Detailed.world st)) (strip (submitted_query s)) (saved_path s))
      as [text|e]; run_detailed; rewrite Hget, lookup_insert_eq; run_detailed;
      rewrite Hcommit;
      (case_decide as Hsame; [discriminate Hsame | split; reflexivity]).
Qed.

Lemma detailed_worker_loop_refines (n : nat) :
  Detailed.benign →
  ∀ st, (Detailed.worker_loop n st).1 = Detailed.Done ()
        ∧ Detailed.world (Detailed.worker_loop n st).2 = (worker_loop n (Detailed.world st)).2.
Proof.
  intros (Hexit & Hget & Hcommit). induction n as [|n IH]; intros st;
    [split; reflexivity|].
  destruct (rq_jobs (Detailed.world st)) as [|[[job_id query] file_path] rest] eqn:Hq.
  - rewrite (worker_loop_empty _ _ Hq). cbn [Detailed.worker_loop]. run_detailed.
    rewrite Hq. split; reflexivity.
  - rewrite (worker_loop_cons _ _ _ _ _ _ Hq). cbn [Detailed.worker_loop].
    run_detailed. rewrite Hq.
    destruct (detailed_process_job_refines (Detailed.on_world (with_rq_jobs rest) st)
                job_id query file_path (Hget _) (Hcommit _) (Hexit _ _ _))
      as [Hdone Hworld].
    destruct (Detailed.process_job job_id query file_path
                (Detailed.on_world (with_rq_jobs rest) st)) as [r st'].
    cbn [fst snd] in Hdone, Hworld. rewrite Hdone.
    destruct (IH st') as [Hdone' Hworld']. rewrite Hworld in Hworld'.
    split; assumption.
Qed.

End Refinement.

(** ** Failures of the analysis routine, and every commit *)

Section Containment.

Context `{Detailed.Environment}.

#[local] Existing Instance Detailed.base.


(** C4 (amended). An exception raised by the analysis routine that is an
    instance of [Exception] is caught where the routine is called and
    recorded: the row is marked 'failed' with the description "error: "
    followed by the text of the exception, on the worker path and on the
    inline path. Whenever the routine returns or raises such an exception
    and the store's get and commit succeed, [process_job] returns normally,
    so the worker loop is not stopped by a failing job: it works through its
    whole queue, and every queued job with a stored row ends in a terminal
    state. What the handlers do not catch leaves [process_job] with the
    table unchanged: an exception outside [Exception] raised by the
    routine, and an exception of the store's get or commit. *)
Theorem C4_ordinary_failures_are_recorded_and_contained :
  (∀ st job_id query file_path row e,
     Detailed.get_fault (utcnow (Detailed.world st)) = None →
     Detailed.commit_fault (utcnow (Detailed.world st)) = None →
     Detailed.run_exits (crew_calls (Detailed.world st)) query file_path = None →
     analysis_table (Detailed.world st) !! job_id = Some row →
     db.id row = job_id →
     run_crew (crew_calls (Detailed.world st)) query file_path = Raised e →
     ∃ st' row',
       Detailed.process_job job_id query file_path st = (Detailed.Done (), st')
       ∧ analysis_table (Detailed.world st') !! job_id = Some row'
       ∧ db.status row' = "failed"
       ∧ db.result row' = Some ("error: " +:+ str e))
  ∧ (∀ st job_id query file_path,
       Detailed.get_fault (utcnow (Detailed.world st)) = None →
       Detailed.commit_fault (utcnow (Detailed.world st)) = None →
       Detailed.run_exits (crew_calls (Detailed.world st)) query file_path = None →
       ∃ st', Detailed.process_job job_id query file_path st = (Detailed.Done (), st'))
  ∧ (∀ s st e,
       REDIS_AVAILABLE = false →
       save_upload s = Returned () →
       analysis_table (Detailed.world st) !! uuid_job s = None →
       Detailed.get_fault (utcnow (Detailed.world st)) = None →
       Detailed.commit_fault (utcnow (Detailed.world st)) = None →
       Detailed.run_exits (crew_calls (Detailed.world st))
         (strip (submitted_query s)) (saved_path s) = None →
       run_crew (crew_calls (Detailed.world st))
         (strip (submitted_query s)) (saved_path s) = Raised e →
       ∃ row',
         analysis_table
           (Detailed.world (Detailed.analyze_financial_document s st).2)
           !! uuid_job s = Some row'
         ∧ db.status row' = "failed"
         ∧ db.result row' = Some ("error: " +:+ str e))
  ∧ (Detailed.benign →
     ∀ st, keyed (Detailed.world st) →
       ∃ st',
         Detailed.worker_loop (length (rq_jobs (Detailed.world st))) st
         = (Detailed.Done (), st')
         ∧ rq_jobs (Detailed.world st') = []
         ∧ ∀ job_id query file_path,
             (job_id, query, file_path) ∈ rq_jobs (Detailed.world st) →
             is_Some (analysis_table (Detailed.world st) !! job_id) →
             ∃ row', analysis_table (Detailed.world st') !! job_id = Some row'
                     ∧ terminal (db.status row'))
  ∧ (∀ st job_id query file_path row class_name text,
       Detailed.get_fault (utcnow (Detailed.world st)) = None →
       Detailed.commit_fault (utcnow (Detailed.world st)) = None →
       analysis_table (Detailed.world st) !! job_id = Some row →
       Detailed.run_exits (crew_calls (Detailed.world st)) query file_path
       = Some (class_name, text) →
       (Detailed.process_job job_id query file_path st).1
       = Detailed.Threw (Detailed.BaseOnly class_name text)
       ∧ analysis_table (Detailed.world (Detailed.process_job job_id query file_path st).2)
         = analysis_table (Detailed.world st))
  ∧ (∀ st job_id query file_path r,
       Detailed.get_fault (utcnow (Detailed.world st)) = Some r →
       Detailed.process_job job_id query file_path st = (Detailed.Threw r, st))
  ∧ (∀ st job_id query file_path row r,
       Detailed.get_fault (utcnow (Detailed.world st)) = None →
       Detailed.commit_fault (utcnow (Detailed.world st)) = Some r →
       analysis_table (Detailed.world st) !! job_id = Some row →
       (Detailed.process_job job_id query file_path st).1 = Detailed.Threw r
       ∧ analysis_table (Detailed.world (Detailed.process_job job_id query file_path st).2)
         = analysis_table (Detailed.world st)).
Proof.
  split; [|split; [|split; [|split; [|split; [|split]]]]].
  - intros st job_id query file_path row e Hget Hcommit Hexit Hrow Hid Hrun.
    subst job_id.
    destruct (detailed_process_job_refines st (db.id row) query file_path
                Hget Hcommit Hexit) as [Hdone Hworld].
    destruct (Detailed.process_job (db.id row) query file_path st) as [r st'].
    cbn [fst snd] in Hdone, Hworld. subst r.
    exists st', (rewritten (Raised e) (utcnow (Detailed.world st)) row).
    split; [reflexivity|]. rewrite Hworld.
    rewrite (process_job_present _ _ _ _ _ Hrow). cbn [snd analysis_table].
    rewrite flushed_rewritten, lookup_insert_eq, Hrun by assumption.
    split; [reflexivity|].
    destruct (rewritten_columns (Raised e) (utcnow (Detailed.world st)) row)
      as (_ & _ & _ & _ & -> & ->).
    split; reflexivity.
  - intros st job_id query file_path Hget Hcommit Hexit.
    destruct (detailed_process_job_refines st job_id query file_path
                Hget Hcommit Hexit) as [Hdone _].
    destruct (Detailed.process_job job_id query file_path st) as [r st'].
    cbn [fst] in Hdone. subst r. eauto.
  - intros s st e Hredis Hsave Hfresh Hget Hcommit Hexit Hrun.
    rewrite (proj2 (detailed_analyze_refines s st Hget Hcommit Hexit)).
    rewrite (analyze_inline _ _ Hredis Hsave Hfresh). cbn [snd analysis_table].
    rewrite lookup_insert_eq, Hrun. eexists. split; [reflexivity|].
    split; reflexivity.
  - intros Hbenign st Hkey.
    destruct (detailed_worker_loop_refines (length (rq_jobs (Detailed.world st)))
                Hbenign st) as [Hdone Hworld].
    destruct (Detailed.worker_loop (length (rq_jobs (Detailed.world st))) st)
      as [r st'].
    cbn [fst snd] in Hdone, Hworld. subst r. exists st'.
    split; [reflexivity|]. rewrite Hworld.
    destruct (worker_loop_returns (length (rq_jobs (Detailed.world st)))
                (Detailed.world st)) as (_ & Hrest & _).
    split; [rewrite Hrest; apply drop_all|].
    intros job_id query file_path Hin Hsome.
    eapply worker_loop_all_terminal; eauto.
  - intros st job_id query file_path row class_name text Hget Hcommit Hrow Hexit.
    destruct (detailed_process_job_exits st job_id query file_path row class_name text
                Hget Hcommit Hrow Hexit) as (? & ? & _).
    split; assumption.
  - intros st job_id query file_path r Hget.
    apply detailed_process_job_get_fault. assumption.
  - intros st job_id query file_path row r Hget Hcommit Hrow.
    destruct (detailed_process_job_commit_fault st job_id query file_path row r
                Hget Hcommit Hrow) as (? & ? & _).
    split; assumption.
Qed.


End Containment.

(** ** The detailed statements at concrete inputs *)

Lemma two_queued_state_reachable : @Detailed.reachable calm_recovering two_queued_state.
Proof.
  exists fresh_state. split; [repeat split|].
  eapply rtc_l; [apply (@Detailed.step_submit calm_recovering doc1)|].
  eapply rtc_l; [apply (@Detailed.step_submit calm_recovering doc2)|].
  apply rtc_refl.
Qed.


(** The tables the store has held while the failing inline submission of
    [doc1] was handled: the empty one, one with the 'pending' row, one with
    the 'failed' row. *)
Example inline_failed_state_history :
  (λ t, (λ row, (db.status row, db.result row)) <$> t !! "j-1")
    <$> Detailed.history inline_failed_state
  = [Some ("failed", Some ("error: " +:+ leaked_text)); Some ("pending", None); None].
Proof. vm_compute. reflexivity. Qed.

(** C4, as stated, fails. The call for [doc1] is queued and its row is
    'pending'. When the crew ends by [SystemExit], the exception is not
    caught: it leaves [process_job], reaches the loop of the worker, and the
    row is still 'pending'. When the crew raises an ordinary exception
    while the database is locked, the commit in the [finally] clause raises,
    that exception leaves [process_job], and the row is still 'pending'. *)
Lemma C4_uncaught_exceptions_leave_process_job :
  rq_jobs (Detailed.world queued_state)
  = [("j-1", "summarize", "data/financial_document_f-1.pdf")]
  ∧ db.status <$> analysis_table (Detailed.world queued_state) !! "j-1" = Some "pending"
  ∧ (@Detailed.process_job exiting_environment "j-1" "summarize"
       "data/financial_document_f-1.pdf" queued_state).1
    = Detailed.Threw (Detailed.BaseOnly "SystemExit" "1")
  ∧ db.status
      <$> analysis_table
            (Detailed.world
               (@Detailed.process_job exiting_environment "j-1" "summarize"
                  "data/financial_document_f-1.pdf" queued_state).2) !! "j-1"
    = Some "pending"
  ∧ (@Detailed.worker_loop exiting_environment 1 queued_state).1
    = Detailed.Threw (Detailed.BaseOnly "SystemExit" "1")
  ∧ @run_crew (@Detailed.base locked_environment) 0 "summarize"
      "data/financial_document_f-1.pdf"
    = Raised (Exception "rate limit exceeded")
  ∧ (@Detailed.process_job locked_environment "j-1" "summarize"
       "data/financial_document_f-1.pdf" queued_state_at_7).1
    = Detailed.Threw
        (Detailed.Instance (Exception "(sqlite3.OperationalError) database is locked"))
  ∧ db.status
      <$> analysis_table
            (Detailed.world
               (@Detailed.process_job locked_environment "j-1" "summarize"
                  "data/financial_document_f-1.pdf" queued_state_at_7).2) !! "j-1"
    = Some "pending".
Proof. repeat split; vm_compute; reflexivity. Qed.

Lemma C4_witness :
  @Detailed.benign calm_recovering
  ∧ keyed (Detailed.world two_queued_state)
  ∧ ∃ st',
      @Detailed.worker_loop calm_recovering
        (length (rq_jobs (Detailed.world two_queued_state))) two_queued_state
      = (Detailed.Done (), st')
      ∧ rq_jobs (Detailed.world st') = []
      ∧ ∀ job_id query file_path,
          (job_id, query, file_path) ∈ rq_jobs (Detailed.world two_queued_state) →
          is_Some (analysis_table (Detailed.world two_queued_state) !! job_id) →
          ∃ row', analysis_table (Detailed.world st') !! job_id = Some row'
                  ∧ terminal (db.status row').
Proof.
  assert (@Detailed.benign calm_recovering) as Hbenign
    by (split; [|split]; intros; reflexivity).
  assert (keyed (Detailed.world two_queued_state)) as Hkey
    by apply (@reachable_consistent calm_recovering _ two_queued_state_reachable).
  split; [exact Hbenign|]. split; [exact Hkey|].
  exact (proj1 (proj2 (proj2 (proj2 (@C4_ordinary_failures_are_recorded_and_contained
                                       calm_recovering))))
           Hbenign two_queued_state Hkey).
Defined.

